(** * Connect Four server (serv.py): a shallow embedding and its properties

    The development follows [src/serv.py]:
    - [Connect4Game]: the board engine and the per-session state
      ([check_winner], [make_move]);
    - [Connect4Server]: matchmaking ([register_player]) and move routing
      ([handle_move]).

    Python objects are mutated in place; here every method takes the object
    and returns the object after the call.  A Python exception is a value
    of [res]; a method that may raise after it has mutated [self] returns
    the mutated object next to the exception. *)

From stdpp Require Import base numbers list strings gmap.

Local Open Scope string_scope.
Local Open Scope list_scope.
Local Open Scope Z_scope.

(** ** Exceptions *)

Inductive exn : Set := IndexError | KeyError.

Inductive res (A : Type) : Type :=
  | Ret (a : A)
  | Raise (e : exn).
Arguments Ret {A} a.
Arguments Raise {A} e.

#[global] Instance res_ret : MRet res := λ A a, Ret a.
#[global] Instance res_bind : MBind res := λ A B k m,
  match m with
  | Ret a => k a
  | Raise e => Raise e
  end.

(** ** Python built-ins used by the source *)

(** [all(f(i) for i in ixs)]: stops at the first [False]. *)
Fixpoint py_all (f : nat → res bool) (ixs : list nat) : res bool :=
  match ixs with
  | [] => Ret true
  | i :: ixs' => b ← f i; if b : bool then py_all f ixs' else Ret false
  end.

(** [for i in ixs: if f(i): return True], falling through when no [i]
    passes the test. *)
Fixpoint py_any (f : nat → res bool) (ixs : list nat) : res bool :=
  match ixs with
  | [] => Ret false
  | i :: ixs' => b ← f i; if b : bool then Ret true else py_any f ixs'
  end.

(** [range(n)] and [range(n-1, -1, -1)]. *)
Definition range (n : nat) : list nat := seq 0 n.
Definition range_down (n : nat) : list nat := reverse (seq 0 n).

(** A [dict] whose iteration order matters is an association list in
    insertion order: [d[k] = v] replaces the value of an existing key in
    place and appends a new key at the end. *)
Section dict.
Context {K V : Type} `{EqDecision K}.

Fixpoint dict_set (d : list (K * V)) (k : K) (v : V) : list (K * V) :=
  match d with
  | [] => [(k, v)]
  | (k', v') :: d' =>
      if decide (k' = k) then (k, v) :: d' else (k', v') :: dict_set d' k v
  end.

Fixpoint dict_get (d : list (K * V)) (k : K) : option V :=
  match d with
  | [] => None
  | (k', v') :: d' => if decide (k' = k) then Some v' else dict_get d' k
  end.

Definition keys (d : list (K * V)) : list K := d.*1.
Definition values (d : list (K * V)) : list V := d.*2.
End dict.

(** [xs.index(x)]: the position of the first occurrence. *)
Fixpoint index `{EqDecision A} (xs : list A) (x : A) : option nat :=
  match xs with
  | [] => None
  | y :: xs' => if decide (y = x) then Some 0%nat else S <$> index xs' x
  end.

(** ** class Connect4Game *)

Record Connect4Game : Type := mkGame {
  game_id : string;
  board : list (list Z);
  current_player : Z;
  players : list (Z * string);   (* {player_number: player_id} *)
  game_over : bool;
  winner : option Z;
  max_players : Z
}.

(** [Connect4Game.__init__] *)
Definition new_game (gid : string) : Connect4Game :=
  {| game_id := gid;
     board := replicate 6 (replicate 7 0);
     current_player := 1;
     players := [];
     game_over := false;
     winner := None;
     max_players := 2 |}.

(** [b[row][col]] for indices that are not negative; out of range raises. *)
Definition getitem (b : list (list Z)) (row col : nat) : res Z :=
  match b !! row with
  | Some r => match r !! col with
              | Some v => Ret v
              | None => Raise IndexError
              end
  | None => Raise IndexError
  end.

(** [b[row][col] = v].  The source only assigns to a cell it has just read,
    so the index is in range there. *)
Definition setitem (b : list (list Z)) (row col : nat) (v : Z) : list (list Z) :=
  alter (<[col := v]>) row b.

Definition cell_is (b : list (list Z)) (player : Z) (row col : nat) : res bool :=
  v ← getitem b row col; mret (v =? player).

(** [Connect4Game.check_winner] *)
Definition check_winner (self : Connect4Game) (player : Z) : res bool :=
  let b := board self in
  (* Horizontal check *)
  h ← py_any (λ row, py_any (λ col,
         py_all (λ i, cell_is b player row (col + i)%nat) (range 4))
       (range 4)) (range 6);
  if h : bool then Ret true else
  (* Vertical check *)
  v ← py_any (λ col, py_any (λ row,
         py_all (λ i, cell_is b player (row + i)%nat col) (range 4))
       (range 3)) (range 7);
  if v : bool then Ret true else
  (* Diagonal checks *)
  py_any (λ row, py_any (λ col,
      (* Diagonal down-right *)
      d ← py_all (λ i, cell_is b player (row + i)%nat (col + i)%nat) (range 4);
      if d : bool then Ret true else
      (* Diagonal down-left *)
      py_all (λ i, cell_is b player (row + i)%nat (col + 3 - i)%nat) (range 4))
    (range 4)) (range 3).

Definition set_board (self : Connect4Game) (b : list (list Z)) : Connect4Game :=
  mkGame (game_id self) b (current_player self) (players self)
         (game_over self) (winner self) (max_players self).

Definition set_current_player (self : Connect4Game) (p : Z) : Connect4Game :=
  mkGame (game_id self) (board self) p (players self)
         (game_over self) (winner self) (max_players self).

Definition set_players (self : Connect4Game) (ps : list (Z * string)) : Connect4Game :=
  mkGame (game_id self) (board self) (current_player self) ps
         (game_over self) (winner self) (max_players self).

Definition set_won (self : Connect4Game) (p : Z) : Connect4Game :=
  mkGame (game_id self) (board self) (current_player self) (players self)
         true (Some p) (max_players self).

(** The loop of [make_move] over the rows still to be tried. *)
Fixpoint drop_piece (self : Connect4Game) (player : Z) (column : nat)
    (rows : list nat) : Connect4Game * res (bool * string) :=
  match rows with
  | [] => (self, Ret (false, "Column is full"))
  | row :: rows' =>
      match getitem (board self) row column with
      | Raise e => (self, Raise e)
      | Ret v =>
          if v =? 0 then
            let self1 := set_board self (setitem (board self) row column player) in
            (* Check for winner *)
            match check_winner self1 player with
            | Raise e => (self1, Raise e)
            | Ret w =>
                let self2 := if w : bool then set_won self1 player else self1 in
                (* Switch player *)
                (set_current_player self2 (3 - player), Ret (true, "Move successful"))
            end
          else drop_piece self player column rows'
      end
  end.

(** [Connect4Game.make_move] *)
Definition make_move (self : Connect4Game) (player column : Z)
    : Connect4Game * res (bool * string) :=
  (* Validate column *)
  if bool_decide (column < 0 ∨ column >= 7) then (self, Ret (false, "Invalid column"))
  else drop_piece self player (Z.to_nat column) (range_down 6).

(** ** class Connect4Server *)

(** The values the server puts into the dicts it sends (as JSON). *)
Inductive pyval : Type :=
  | VBool (b : bool)
  | VStr (s : string)
  | VInt (n : Z)
  | VNone
  | VBoard (b : list (list Z)).

Definition of_winner (w : option Z) : pyval :=
  match w with
  | Some p => VInt p
  | None => VNone
  end.

(** A connection handle ([WebSocketServerProtocol]) is opaque to the server:
    it is stored, looked up and sent to.  A sent frame is the handle and the
    dict that was serialised. *)
Definition socket : Set := nat.
Definition frame : Type := socket * list (string * pyval).

(** [game_waiting] refers to a game object that is also a value of [games]:
    both names are given to it in the same branch of [register_player], and
    an entry of [games] is only ever overwritten in that branch.  The
    reference is therefore the key of the game in [games], and a mutation
    through either name is a mutation of that entry. *)
Record Connect4Server : Type := mkServer {
  games : list (string * Connect4Game);
  player_connections : gmap string socket;
  game_waiting : option string
}.

(** [Connect4Server.__init__] *)
Definition new_server : Connect4Server :=
  {| games := []; player_connections := ∅; game_waiting := None |}.

Definition game_status (status : string) (game_id : string) (player_number : Z)
    : list (string * pyval) :=
  [("type", VStr "game_status"); ("status", VStr status);
   ("player_number", VInt player_number); ("game_id", VStr game_id)].

Definition game_update (game : Connect4Game) : list (string * pyval) :=
  [("type", VStr "game_update"); ("board", VBoard (board game));
   ("current_player", VInt (current_player game));
   ("game_over", VBool (game_over game)); ("winner", of_winner (winner game))].

(** [for player_number, p_id in game.players.items():
       player_socket = self.player_connections[p_id]
       await player_socket.send(json.dumps(msg))]
    The lookup raises [KeyError] for a participant whose connection was
    removed; the frames sent before that stay sent. *)
Fixpoint notify_players (conns : gmap string socket) (ps : list (Z * string))
    (msg : Z → list (string * pyval)) : list frame * res () :=
  match ps with
  | [] => ([], Ret ())
  | (player_number, p_id) :: ps' =>
      match conns !! p_id with
      | None => ([], Raise KeyError)
      | Some player_socket =>
          let '(out, r) := notify_players conns ps' msg in
          ((player_socket, msg player_number) :: out, r)
      end
  end.

(** [Connect4Server.register_player].  The two [uuid.uuid4()] draws are
    arguments: [player_id], and [fresh_game_id], which only the first
    branch uses.  In a state with a dangling [game_waiting], which the
    source cannot build (see [waiting_ok]), the model raises at the
    lookup. *)
Definition register_player (self : Connect4Server) (websocket : socket)
    (player_id fresh_game_id : string) : Connect4Server * list frame * res string :=
  let conns := <[player_id := websocket]> (player_connections self) in
  match game_waiting self with
  | None =>
      (* Create a new game and wait for another player *)
      let game := set_players (new_game fresh_game_id)
                    (dict_set (players (new_game fresh_game_id)) 1 player_id) in
      (mkServer (dict_set (games self) fresh_game_id game) conns (Some fresh_game_id),
       [(websocket, game_status "waiting" fresh_game_id 1)],
       Ret player_id)
  | Some gid =>
      match dict_get (games self) gid with
      | None => (mkServer (games self) conns (Some gid), [], Raise KeyError)
      | Some game0 =>
          (* Join existing waiting game *)
          let game := set_players game0 (dict_set (players game0) 2 player_id) in
          let gs := dict_set (games self) gid game in
          (* Notify both players that the game is starting *)
          let '(out, r) := notify_players conns (players game)
                             (game_status "started" (game_id game)) in
          match r with
          | Raise e => (mkServer gs conns (Some gid), out, Raise e)
          | Ret _ =>
              (* Reset waiting game *)
              (mkServer gs conns None, out, Ret player_id)
          end
      end
  end.

(** [list(game.players.keys())[list(game.players.values()).index(player_id)]]:
    the seat of the first entry whose value is [player_id].  It is [None]
    exactly when [player_id in game.players.values()] is false
    ([seat_of_None]), so one match stands for the test and the lookup. *)
Definition seat_of (game : Connect4Game) (player_id : string) : option Z :=
  i ← index (values (players game)) player_id; keys (players game) !! i.

Definition not_your_turn : list (string * pyval) :=
  [("success", VBool false); ("message", VStr "Not your turn")].

Definition game_not_found : list (string * pyval) :=
  [("success", VBool false); ("message", VStr "Game not found")].

Definition move_result (success : bool) (message : string) (game : Connect4Game)
    : list (string * pyval) :=
  [("success", VBool success); ("message", VStr message);
   ("board", VBoard (board game));
   ("current_player", VInt (current_player game));
   ("game_over", VBool (game_over game)); ("winner", of_winner (winner game))].

(** The body of the loop of [handle_move] for the game that seats the
    participant.  [column] is [data['column']], an integer as the message
    schema has it. *)
Definition move_in_game (conns : gmap string socket) (game : Connect4Game)
    (player_number column : Z)
    : Connect4Game * list frame * res (list (string * pyval)) :=
  (* Validate it's the player's turn *)
  if bool_decide (current_player game ≠ player_number)
  then (game, [], Ret not_your_turn)
  else
    (* Make the move *)
    let '(game', r) := make_move game player_number column in
    match r with
    | Raise e => (game', [], Raise e)
    | Ret (success, message) =>
        if success : bool then
          (* Broadcast updated game state to both players *)
          let '(out, sent) := notify_players conns (players game')
                                (λ _, game_update game') in
          match sent with
          | Raise e => (game', out, Raise e)
          | Ret _ => (game', out, Ret (move_result success message game'))
          end
        else (game', [], Ret (move_result success message game'))
    end.

(** The loop of [handle_move] over [self.games.values()], in insertion
    order; the game that is found is mutated in place and the loop ends
    there. *)
Fixpoint route_move (conns : gmap string socket) (gs : list (string * Connect4Game))
    (player_id : string) (column : Z)
    : list (string * Connect4Game) * list frame * res (list (string * pyval)) :=
  match gs with
  | [] => ([], [], Ret game_not_found)
  | (gid, game) :: gs' =>
      match seat_of game player_id with
      | None =>
          let '(gs'', out, r) := route_move conns gs' player_id column in
          ((gid, game) :: gs'', out, r)
      | Some player_number =>
          let '(game', out, r) := move_in_game conns game player_number column in
          ((gid, game') :: gs', out, r)
      end
  end.

(** [Connect4Server.handle_move] *)
Definition handle_move (self : Connect4Server) (player_id : string) (column : Z)
    : Connect4Server * list frame * res (list (string * pyval)) :=
  let '(gs, out, r) :=
    route_move (player_connections self) (games self) player_id column in
  (mkServer gs (player_connections self) (game_waiting self), out, r).

(** The [finally] block of [handle_websocket]:
    [del self.player_connections[player_id]] when the key is present. *)
Definition disconnect (self : Connect4Server) (player_id : string) : Connect4Server :=
  mkServer (games self) (delete player_id (player_connections self)) (game_waiting self).

(** ** Runs of the server *)

Inductive event : Type :=
  | Join (websocket : socket) (player_id fresh_game_id : string)
  | Move (player_id : string) (column : Z)
  | Leave (player_id : string).

Definition step (self : Connect4Server) (e : event) : Connect4Server :=
  match e with
  | Join ws pid gid => (register_player self ws pid gid).1.1
  | Move pid col => (handle_move self pid col).1.1
  | Leave pid => disconnect self pid
  end.

Definition run (self : Connect4Server) (es : list event) : Connect4Server :=
  foldl step self es.

(** The game a participant's moves are routed to: the first game in
    [games] that seats the participant. *)
Fixpoint find_game (gs : list (string * Connect4Game)) (player_id : string)
    : option Connect4Game :=
  match gs with
  | [] => None
  | (_, game) :: gs' =>
      match seat_of game player_id with
      | Some _ => Some game
      | None => find_game gs' player_id
      end
  end.

(** Two participants paired in one game, and a run in which they submit
    the given columns in turn, the first participant starting. *)
Definition two_players : Connect4Server :=
  run new_server [Join 1%nat "p1" "g1"; Join 2%nat "p2" "g2"].

Fixpoint alternate (first second : string) (columns : list Z) : list event :=
  match columns with
  | [] => []
  | c :: columns' => Move first c :: alternate second first columns'
  end.

(** ** The board *)

(** The cell at a row and a column, when the board has it. *)
Definition cell (b : list (list Z)) (row col : nat) : option Z :=
  r ← b !! row; r !! col.

(** The board of the source: 6 rows of 7 cells. *)
Definition board_wf (b : list (list Z)) : Prop :=
  length b = 6%nat ∧ Forall (λ r, length r = 7%nat) b.

(** Four cells in line, by signed coordinates: a start cell and one of the
    four directions right, down, down-right and down-left. *)
Definition cellZ (b : list (list Z)) (r c : Z) : option Z :=
  if bool_decide (0 ≤ r ∧ 0 ≤ c) then cell b (Z.to_nat r) (Z.to_nat c) else None.

Definition directions : list (Z * Z) := [(0, 1); (1, 0); (1, 1); (1, -1)].

Definition four_in_line (b : list (list Z)) (player : Z) : Prop :=
  ∃ r c dr dc, (dr, dc) ∈ directions ∧
    ∀ i, 0 ≤ i < 4 → cellZ b (r + i * dr) (c + i * dc) = Some player.

(** The lowest empty cell of a column: the empty cell with the greatest
    row index (row 5 is the floor). *)
Definition lowest_empty (b : list (list Z)) (col row : nat) : Prop :=
  cell b row col = Some 0 ∧ ∀ r, (row < r < 6)%nat → cell b r col ≠ Some 0.

Definition column_full (b : list (list Z)) (col : nat) : Prop :=
  ∀ r, (r < 6)%nat → cell b r col ≠ Some 0.

Definition board_full (b : list (list Z)) : Prop :=
  ∀ r c, cell b r c ≠ Some 0.

(** ** Vocabulary of the properties *)

(** What the three scans of [check_winner] look for, by the indices of
    their loops. *)
Definition scanned (b : list (list Z)) (player : Z) : Prop :=
  (∃ row, row ∈ range 6 ∧ ∃ col, col ∈ range 4 ∧
     ∀ i, i ∈ range 4 → cell b row (col + i) = Some player)
  ∨ (∃ col, col ∈ range 7 ∧ ∃ row, row ∈ range 3 ∧
     ∀ i, i ∈ range 4 → cell b (row + i) col = Some player)
  ∨ (∃ row, row ∈ range 3 ∧ ∃ col, col ∈ range 4 ∧
     ((∀ i, i ∈ range 4 → cell b (row + i) (col + i) = Some player)
      ∨ (∀ i, i ∈ range 4 → cell b (row + i) (col + 3 - i) = Some player))).

(** The game after [player]'s piece went to [row] of [col], the scan of
    the new board having returned [w]. *)
Definition placed (self : Connect4Game) (player : Z) (row col : nat) (w : bool)
    : Connect4Game :=
  let self1 := set_board self (setitem (board self) row col player) in
  set_current_player (if w then set_won self1 player else self1) (3 - player).

(** The three ways [make_move] ends on a board of the source's size. *)
Inductive move_outcome (self : Connect4Game) (player column : Z)
    : Connect4Game * res (bool * string) → Prop :=
  | MoveInvalid :
      column < 0 ∨ column >= 7 →
      move_outcome self player column (self, Ret (false, "Invalid column"))
  | MoveFull :
      0 ≤ column < 7 →
      column_full (board self) (Z.to_nat column) →
      move_outcome self player column (self, Ret (false, "Column is full"))
  | MovePlaced row w :
      0 ≤ column < 7 →
      (row < 6)%nat →
      lowest_empty (board self) (Z.to_nat column) row →
      check_winner (set_board self (setitem (board self) row (Z.to_nat column) player))
        player = Ret w →
      (w = true ↔
         four_in_line (setitem (board self) row (Z.to_nat column) player) player) →
      move_outcome self player column
        (placed self player row (Z.to_nat column) w, Ret (true, "Move successful")).

(** *** Concrete games *)

(** The first participant has three pieces on the floor, columns 0 to 2,
    and is to move. *)
Definition three_in_a_row : Connect4Server :=
  run two_players (alternate "p1" "p2" [0; 6; 1; 6; 2; 6]).

(** The first participant has just completed the floor line in column 3. *)
Definition won_by_first : Connect4Server :=
  run three_in_a_row [Move "p1" 3].

(** Forty-one moves that leave one empty cell, the top of column 6, and
    no line of four for either seat; the second participant is to move. *)
Definition one_cell_left : Connect4Server :=
  run two_players (alternate "p1" "p2"
    [2; 0; 0; 0; 0; 0; 0; 2; 2; 2; 2; 2;
     3; 1; 1; 1; 1; 1; 1; 3; 3; 3; 3; 3;
     6; 4; 4; 4; 4; 4; 4; 6; 6; 5; 5; 5; 5; 5; 5; 6; 6]).

(** The number of empty cells of a board. *)
Definition count_empty (b : list (list Z)) : nat :=
  length (filter (λ v, v = 0) (concat b)).

(** The game of the first participant in a concrete run. *)
Definition game_of (s : Connect4Server) : Connect4Game :=
  default (new_game "") (find_game (games s) "p1").

(** A move keeps the seats and the identity of the game, never clears
    [game_over], and writes at most one cell, which was empty. *)
Definition move_frame (player : Z) (self self' : Connect4Game) : Prop :=
  players self' = players self ∧
  game_id self' = game_id self ∧
  (game_over self = true → game_over self' = true) ∧
  (board self' = board self
   ∨ ∃ row col, cell (board self) row col = Some 0 ∧
                board self' = setitem (board self) row col player).

Definition six_fields : list string :=
  ["success"; "message"; "board"; "current_player"; "game_over"; "winner"].

(** The seats of a game are 1 and 2. *)
Definition seats_ok (game : Connect4Game) : Prop :=
  ∀ n player_id, (n, player_id) ∈ players game → n = 1 ∨ n = 2.

(** A cell keeps its value, or goes from empty to a seat's marker. *)
Definition cell_step (v v' : Z) : Prop :=
  v' = v ∨ (v = 0 ∧ (v' = 1 ∨ v' = 2)).

Definition game_le (game game' : Connect4Game) : Prop :=
  players game' = players game ∧
  ∀ row col v, cell (board game) row col = Some v →
    ∃ v', cell (board game') row col = Some v' ∧ cell_step v v'.

Definition games_le (gs gs' : list (string * Connect4Game)) : Prop :=
  Forall2 (λ entry entry', entry'.1 = entry.1 ∧ game_le entry.2 entry'.2) gs gs'.

(** The cell [(row, col)] of the [k]-th game of the server. *)
Definition cell_at (self : Connect4Server) (k row col : nat) : option Z :=
  entry ← games self !! k; cell (board entry.2) row col.

(** The server after a sequence of move requests, each a participant and a
    column. *)
Definition submit (self : Connect4Server) (requests : list (string * Z))
    : Connect4Server :=
  run self ((λ request, Move request.1 request.2) <$> requests).

(** Every game seats its participants as 1 and 2, and the waiting game is
    one of the games. *)
Definition seats_all_ok (self : Connect4Server) : Prop :=
  Forall (λ entry, seats_ok entry.2) (games self).

Definition waiting_ok (self : Connect4Server) : Prop :=
  ∀ waiting, game_waiting self = Some waiting →
    is_Some (dict_get (games self) waiting).

(** *** Matchmaking after a participant left *)

(** The waiting session's first seat belongs to a participant who has no
    connection. *)
Definition stuck (self : Connect4Server) (waiting first : string) : Prop :=
  game_waiting self = Some waiting ∧
  (∃ game rest, dict_get (games self) waiting = Some game ∧
                players game = (1, first) :: rest) ∧
  player_connections self !! first = None.

(** No event of the run is a join under the identity [first]. *)
Definition no_join_as (first : string) (es : list event) : Prop :=
  Forall (λ e, match e with
               | Join _ player_id _ => player_id ≠ first
               | _ => True
               end) es.

(** *** Invariants of a game *)

(** The number of cells of a board that hold [p]. *)
Definition count_cells (p : Z) (b : list (list Z)) : nat :=
  length (filter (λ v, v = p) (concat b)).

(** Every cell is empty or holds a seat's marker. *)
Definition cells_ok (b : list (list Z)) : Prop :=
  ∀ row col v, cell b row col = Some v → v = 0 ∨ v = 1 ∨ v = 2.

(** The turn matches the pieces on the board: seat 1 is to move when both
    seats have as many pieces, seat 2 when seat 1 has one more. *)
Definition turn_ok (game : Connect4Game) : Prop :=
  (current_player game = 1 ∧
   count_cells 1 (board game) = count_cells 2 (board game))
  ∨ (current_player game = 2 ∧
     count_cells 1 (board game) = S (count_cells 2 (board game))).

(** The recorded outcome matches the board: a game that is over has a
    winner, a seat with four in line; a game that is not over has no
    winner and no seat has four in line. *)
Definition outcome_ok (game : Connect4Game) : Prop :=
  if game_over game
  then ∃ p, (p = 1 ∨ p = 2) ∧ winner game = Some p ∧ four_in_line (board game) p
  else winner game = None ∧
       ¬ four_in_line (board game) 1 ∧ ¬ four_in_line (board game) 2.

Definition game_ok (game : Connect4Game) : Prop :=
  board_wf (board game) ∧ cells_ok (board game) ∧ seats_ok game ∧
  turn_ok game ∧ outcome_ok game.


(** * Properties *)

(** ** Reading and writing cells *)

Lemma getitem_cell b row col :
  getitem b row col = match cell b row col with
                      | Some v => Ret v
                      | None => Raise IndexError
                      end.
Proof.
  unfold getitem, cell. destruct (b !! row) as [r|]; simpl; [|done].
  by destruct (r !! col).
Qed.

Lemma cell_wf_is_Some b row col :
  board_wf b → (row < 6)%nat → (col < 7)%nat → is_Some (cell b row col).
Proof.
  intros [Hlen Hrows] Hr Hc. unfold cell.
  destruct (lookup_lt_is_Some_2 b row) as [r Hrow]; [lia|].
  rewrite Hrow. simpl. apply lookup_lt_is_Some_2.
  rewrite Forall_lookup in Hrows. rewrite (Hrows _ _ Hrow). lia.
Qed.

Lemma cell_Some_wf b row col v :
  board_wf b → cell b row col = Some v → (row < 6)%nat ∧ (col < 7)%nat.
Proof.
  intros [Hlen Hrows] H. unfold cell in H.
  destruct (b !! row) as [r|] eqn:Hrow; simpl in H; [|done].
  split.
  - apply lookup_lt_Some in Hrow. lia.
  - rewrite Forall_lookup in Hrows. apply lookup_lt_Some in H.
    rewrite (Hrows _ _ Hrow) in H. lia.
Qed.

Lemma cell_setitem_eq b row col v p :
  cell b row col = Some v → cell (setitem b row col p) row col = Some p.
Proof.
  unfold cell, setitem. intros H.
  destruct (b !! row) as [r|] eqn:Hrow; simpl in H; [|done].
  rewrite list_lookup_alter_eq, Hrow. simpl.
  apply list_lookup_insert_eq. by eapply lookup_lt_Some.
Qed.

Lemma cell_setitem_ne b row col p row' col' :
  (row', col') ≠ (row, col) →
  cell (setitem b row col p) row' col' = cell b row' col'.
Proof.
  unfold cell, setitem. intros Hne.
  destruct (decide (row' = row)) as [->|Hr].
  - rewrite list_lookup_alter_eq. destruct (b !! row) as [r|]; simpl; [|done].
    apply list_lookup_insert_ne. congruence.
  - by rewrite list_lookup_alter_ne.
Qed.

Lemma setitem_wf b row col p : board_wf b → board_wf (setitem b row col p).
Proof.
  intros [Hlen Hrows]. unfold setitem. split.
  - by rewrite length_alter.
  - apply Forall_alter; [done|]. intros r _ Hr. by rewrite length_insert.
Qed.

Lemma new_game_wf gid : board_wf (board (new_game gid)).
Proof. split; [done|]. simpl. repeat constructor. Qed.

(** ** The loops of [check_winner] *)

Lemma py_all_spec (f : nat → res bool) (P : nat → Prop) ixs :
  (∀ i, i ∈ ixs → ∃ b, f i = Ret b ∧ (b = true ↔ P i)) →
  ∃ b, py_all f ixs = Ret b ∧ (b = true ↔ ∀ i, i ∈ ixs → P i).
Proof.
  induction ixs as [|i ixs IH]; intros Hf; simpl.
  - exists true. split; [done|]. split; [|done]. intros _ i Hi. by apply elem_of_nil in Hi.
  - destruct (Hf i) as (b & -> & Hb); [left|]. simpl.
    destruct b.
    + destruct IH as (b' & -> & Hb').
      { intros j Hj. apply Hf. by right. }
      exists b'. split; [done|]. rewrite Hb'. split.
      * intros H j [->|Hj]%elem_of_cons; [by apply Hb | by apply H].
      * intros H j Hj. apply H. by right.
    + exists false. split; [done|]. split; [done|].
      intros H. apply Hb, H. left.
Qed.

Lemma py_any_spec (f : nat → res bool) (P : nat → Prop) ixs :
  (∀ i, i ∈ ixs → ∃ b, f i = Ret b ∧ (b = true ↔ P i)) →
  ∃ b, py_any f ixs = Ret b ∧ (b = true ↔ ∃ i, i ∈ ixs ∧ P i).
Proof.
  induction ixs as [|i ixs IH]; intros Hf; simpl.
  - exists false. split; [done|]. split; [done|].
    intros (i & Hi & _). by apply elem_of_nil in Hi.
  - destruct (Hf i) as (b & -> & Hb); [left|]. simpl.
    destruct b.
    + exists true. split; [done|]. split; [|done].
      intros _. exists i. split; [left | by apply Hb].
    + destruct IH as (b' & -> & Hb').
      { intros j Hj. apply Hf. by right. }
      exists b'. split; [done|]. rewrite Hb'. split.
      * intros (j & Hj & HP). exists j. split; [by right | done].
      * intros (j & [->|Hj]%elem_of_cons & HP).
        -- apply Hb in HP. done.
        -- by exists j.
Qed.

Lemma cell_is_spec b player row col :
  board_wf b → (row < 6)%nat → (col < 7)%nat →
  ∃ w, cell_is b player row col = Ret w ∧ (w = true ↔ cell b row col = Some player).
Proof.
  intros Hwf Hr Hc. unfold cell_is. rewrite getitem_cell.
  destruct (cell_wf_is_Some b row col Hwf Hr Hc) as [v ->]. simpl.
  exists (v =? player). split; [done|].
  rewrite Z.eqb_eq. split; [by intros -> | by intros [= ->]].
Qed.

Local Ltac in_range :=
  unfold range in *;
  repeat match goal with
         | H : _ ∈ seq _ _ |- _ => apply elem_of_seq in H
         end;
  try apply elem_of_seq; lia.

Lemma check_winner_scanned self player :
  board_wf (board self) →
  ∃ w, check_winner self player = Ret w ∧ (w = true ↔ scanned (board self) player).
Proof.
  intros Hwf. unfold check_winner, scanned.
  set (b := board self).
  destruct (py_any_spec
    (λ row, py_any (λ col,
       py_all (λ i, cell_is b player row (col + i)%nat) (range 4)) (range 4))
    (λ row, ∃ col, col ∈ range 4 ∧
       ∀ i, i ∈ range 4 → cell b row (col + i) = Some player) (range 6))
    as (h & -> & Hh).
  { intros row Hrow. apply py_any_spec. intros col Hcol.
    apply py_all_spec. intros i Hi. apply cell_is_spec; [done|in_range..]. }
  cbn [mbind res_bind]. destruct h.
  { exists true. split; [done|]. split; [|done]. intros _. left. by apply Hh. }
  destruct (py_any_spec
    (λ col, py_any (λ row,
       py_all (λ i, cell_is b player (row + i)%nat col) (range 4)) (range 3))
    (λ col, ∃ row, row ∈ range 3 ∧
       ∀ i, i ∈ range 4 → cell b (row + i) col = Some player) (range 7))
    as (v & -> & Hv).
  { intros col Hcol. apply py_any_spec. intros row Hrow.
    apply py_all_spec. intros i Hi. apply cell_is_spec; [done|in_range..]. }
  cbn [mbind res_bind]. destruct v.
  { exists true. split; [done|]. split; [|done]. intros _. right. left. by apply Hv. }
  destruct (py_any_spec
    (λ row, py_any (λ col,
       d ← py_all (λ i, cell_is b player (row + i)%nat (col + i)%nat) (range 4);
       if d : bool then Ret true else
       py_all (λ i, cell_is b player (row + i)%nat (col + 3 - i)%nat) (range 4))
      (range 4))
    (λ row, ∃ col, col ∈ range 4 ∧
       ((∀ i, i ∈ range 4 → cell b (row + i) (col + i) = Some player)
        ∨ (∀ i, i ∈ range 4 → cell b (row + i) (col + 3 - i) = Some player)))
    (range 3))
    as (d & -> & Hd).
  { intros row Hrow. apply py_any_spec. intros col Hcol.
    destruct (py_all_spec
      (λ i, cell_is b player (row + i)%nat (col + i)%nat)
      (λ i, cell b (row + i) (col + i) = Some player) (range 4))
      as (dr & -> & Hdr).
    { intros i Hi. apply cell_is_spec; [done|in_range..]. }
    cbn [mbind res_bind]. destruct dr.
    { exists true. split; [done|]. split; [|done]. intros _. left. by apply Hdr. }
    destruct (py_all_spec
      (λ i, cell_is b player (row + i)%nat (col + 3 - i)%nat)
      (λ i, cell b (row + i) (col + 3 - i) = Some player) (range 4))
      as (dl & -> & Hdl).
    { intros i Hi. apply cell_is_spec; [done|in_range..]. }
    exists dl. split; [done|]. rewrite Hdl. split; [by right|].
    intros [H|H]; [|done]. by apply Hdr in H. }
  exists d. split; [done|]. rewrite Hd. split; [by (right; right)|].
  intros [H|[H|H]]; [by apply Hh in H | by apply Hv in H | done].
Qed.

(** ** Lines in signed coordinates *)

Lemma cellZ_nat b (r c : Z) :
  0 ≤ r → 0 ≤ c → cellZ b r c = cell b (Z.to_nat r) (Z.to_nat c).
Proof. intros Hr Hc. unfold cellZ. by rewrite bool_decide_eq_true_2. Qed.

Lemma cellZ_Some_wf b (r c : Z) v :
  board_wf b → cellZ b r c = Some v →
  0 ≤ r < 6 ∧ 0 ≤ c < 7 ∧ cell b (Z.to_nat r) (Z.to_nat c) = Some v.
Proof.
  intros Hwf H. unfold cellZ in H. case_bool_decide as Hrc; [|done].
  destruct (cell_Some_wf _ _ _ _ Hwf H). repeat split; [lia..|done].
Qed.

Local Ltac line_cell H i :=
  let Hi := fresh "Hi" in
  assert (Hi : 0 ≤ Z.of_nat i < 4) by in_range;
  specialize (H (Z.of_nat i) Hi); clear Hi.

Lemma scanned_four_in_line b player :
  scanned b player → four_in_line b player.
Proof.
  intros [(row & Hrow & col & Hcol & H)
         |[(col & Hcol & row & Hrow & H)
          |(row & Hrow & col & Hcol & [H|H])]].
  - exists (Z.of_nat row), (Z.of_nat col), 0, 1. split; [unfold directions; rewrite !elem_of_cons; naive_solver|].
    intros i Hi. rewrite cellZ_nat by lia.
    replace (Z.to_nat (Z.of_nat row + i * 0)) with row by lia.
    replace (Z.to_nat (Z.of_nat col + i * 1)) with (col + Z.to_nat i)%nat by lia.
    apply H. in_range.
  - exists (Z.of_nat row), (Z.of_nat col), 1, 0. split; [unfold directions; rewrite !elem_of_cons; naive_solver|].
    intros i Hi. rewrite cellZ_nat by lia.
    replace (Z.to_nat (Z.of_nat row + i * 1)) with (row + Z.to_nat i)%nat by lia.
    replace (Z.to_nat (Z.of_nat col + i * 0)) with col by lia.
    apply H. in_range.
  - exists (Z.of_nat row), (Z.of_nat col), 1, 1. split; [unfold directions; rewrite !elem_of_cons; naive_solver|].
    intros i Hi. rewrite cellZ_nat by lia.
    replace (Z.to_nat (Z.of_nat row + i * 1)) with (row + Z.to_nat i)%nat by lia.
    replace (Z.to_nat (Z.of_nat col + i * 1)) with (col + Z.to_nat i)%nat by lia.
    apply H. in_range.
  - exists (Z.of_nat row), (Z.of_nat col + 3), 1, (-1). split; [unfold directions; rewrite !elem_of_cons; naive_solver|].
    intros i Hi. assert (col ∈ seq 0 4) as Hc4 by done.
    apply elem_of_seq in Hc4. rewrite cellZ_nat by lia.
    replace (Z.to_nat (Z.of_nat row + i * 1)) with (row + Z.to_nat i)%nat by lia.
    replace (Z.to_nat (Z.of_nat col + 3 + i * -1)) with (col + 3 - Z.to_nat i)%nat by lia.
    apply H. in_range.
Qed.

Lemma four_in_line_scanned b player :
  board_wf b → four_in_line b player → scanned b player.
Proof.
  intros Hwf (r & c & dr & dc & Hdir & H).
  assert (H0 := H 0 ltac:(lia)). assert (H3 := H 3 ltac:(lia)).
  apply (cellZ_Some_wf _ _ _ _ Hwf) in H0 as (Hr0 & Hc0 & _).
  apply (cellZ_Some_wf _ _ _ _ Hwf) in H3 as (Hr3 & Hc3 & _).
  assert (∀ i : nat, i ∈ range 4 →
    cell b (Z.to_nat (r + Z.of_nat i * dr)) (Z.to_nat (c + Z.of_nat i * dc)) = Some player) as Hcell.
  { intros i Hi. line_cell H i. by apply (cellZ_Some_wf _ _ _ _ Hwf) in H as (_ & _ & H). }
  clear H. unfold directions in Hdir.
  rewrite !elem_of_cons, elem_of_nil in Hdir.
  destruct Hdir as [[= -> ->]|[[= -> ->]|[[= -> ->]|[[= -> ->]|[]]]]].
  - left. exists (Z.to_nat r). split; [in_range|].
    exists (Z.to_nat c). split; [in_range|]. intros i Hi.
    specialize (Hcell i Hi).
    replace (Z.to_nat (r + Z.of_nat i * 0)) with (Z.to_nat r) in Hcell by lia.
    replace (Z.to_nat (c + Z.of_nat i * 1)) with (Z.to_nat c + i)%nat in Hcell by lia.
    done.
  - right. left. exists (Z.to_nat c). split; [in_range|].
    exists (Z.to_nat r). split; [in_range|]. intros i Hi.
    specialize (Hcell i Hi).
    replace (Z.to_nat (r + Z.of_nat i * 1)) with (Z.to_nat r + i)%nat in Hcell by lia.
    replace (Z.to_nat (c + Z.of_nat i * 0)) with (Z.to_nat c) in Hcell by lia.
    done.
  - right. right. exists (Z.to_nat r). split; [in_range|].
    exists (Z.to_nat c). split; [in_range|]. left. intros i Hi.
    specialize (Hcell i Hi).
    replace (Z.to_nat (r + Z.of_nat i * 1)) with (Z.to_nat r + i)%nat in Hcell by lia.
    replace (Z.to_nat (c + Z.of_nat i * 1)) with (Z.to_nat c + i)%nat in Hcell by lia.
    done.
  - right. right. exists (Z.to_nat r). split; [in_range|].
    exists (Z.to_nat (c - 3)). split; [in_range|]. right. intros i Hi.
    specialize (Hcell i Hi).
    replace (Z.to_nat (r + Z.of_nat i * 1)) with (Z.to_nat r + i)%nat in Hcell by lia.
    replace (Z.to_nat (c + Z.of_nat i * -1)) with (Z.to_nat (c - 3) + 3 - i)%nat in Hcell
      by in_range.
    done.
Qed.

Lemma check_winner_total self player :
  board_wf (board self) →
  ∃ w, check_winner self player = Ret w ∧
       (w = true ↔ four_in_line (board self) player).
Proof.
  intros Hwf. destruct (check_winner_scanned self player Hwf) as (w & Hw & Hiff).
  exists w. split; [done|]. rewrite Hiff. split.
  - apply scanned_four_in_line.
  - by apply four_in_line_scanned.
Qed.

(** ** [make_move] *)

Lemma drop_piece_rows self player col n :
  board_wf (board self) → (col < 7)%nat → (n ≤ 6)%nat →
  ((∀ r, (r < n)%nat → cell (board self) r col ≠ Some 0) ∧
   drop_piece self player col (range_down n) = (self, Ret (false, "Column is full")))
  ∨ (∃ row w, (row < n)%nat ∧ cell (board self) row col = Some 0 ∧
       (∀ r, (row < r < n)%nat → cell (board self) r col ≠ Some 0) ∧
       check_winner (set_board self (setitem (board self) row col player)) player
         = Ret w ∧
       (w = true ↔ four_in_line (setitem (board self) row col player) player) ∧
       drop_piece self player col (range_down n)
         = (placed self player row col w, Ret (true, "Move successful"))).
Proof.
  intros Hwf Hcol. unfold range_down. induction n as [|n IH]; intros Hn.
  - left. split; [lia|done].
  - rewrite seq_S, reverse_snoc. cbn [drop_piece Nat.add].
    rewrite getitem_cell.
    destruct (cell_wf_is_Some (board self) n col Hwf) as [v Hv]; [lia|done|].
    rewrite Hv. destruct (Z.eqb_spec v 0) as [->|Hv0].
    + right.
      destruct (check_winner_total
        (set_board self (setitem (board self) n col player)) player)
        as (w & Hw & Hiff).
      { by apply setitem_wf. }
      exists n, w. rewrite Hw. split_and!; [lia|done|lia|done..].
    + destruct IH as [[Hfull ->]|(row & w & Hrow & H0 & Hlow & Hw & Hiff & ->)]; [lia|..].
      * left. split; [|done]. intros r Hr.
        destruct (decide (r = n)) as [->|]; [|apply Hfull; lia].
        rewrite Hv. congruence.
      * right. exists row, w. split_and!; [lia|done| |done..].
        intros r Hr. destruct (decide (r = n)) as [->|]; [|apply Hlow; lia].
        rewrite Hv. congruence.
Qed.

Lemma make_move_outcome self player column :
  board_wf (board self) →
  move_outcome self player column (make_move self player column).
Proof.
  intros Hwf. unfold make_move. case_bool_decide as Hcol.
  - by constructor.
  - destruct (drop_piece_rows self player (Z.to_nat column) 6 Hwf)
      as [[Hfull ->]|(row & w & Hrow & H0 & Hlow & Hw & Hiff & ->)]; [lia|lia|..].
    + apply MoveFull; [lia|done].
    + apply MovePlaced; [lia|done|by split|done..].
Qed.

(** A board of the source's size keeps it. *)
Lemma make_move_wf self player column :
  board_wf (board self) → board_wf (board (make_move self player column).1).
Proof.
  intros Hwf. destruct (make_move_outcome self player column Hwf); [done..|].
  unfold placed. destruct w; by apply setitem_wf.
Qed.

(** The lowest empty cell of a column is unique. *)
Lemma lowest_empty_unique b col row row' :
  (row < 6)%nat → (row' < 6)%nat →
  lowest_empty b col row → lowest_empty b col row' → row = row'.
Proof.
  intros Hr Hr' [H0 Hlow] [H0' Hlow'].
  destruct (lt_eq_lt_dec row row') as [[Hlt| ->]|Hlt]; [|done|].
  - by destruct (Hlow row' ltac:(lia)).
  - by destruct (Hlow' row ltac:(lia)).
Qed.

(** *** The claims on the board engine *)

(** C6. On a board of the source's size the win detection returns, and it
    returns [True] for a seat exactly when the board holds four consecutive
    cells of that seat's marker along a row, a column or one of the two
    diagonals, anywhere on the 6x7 board. *)
Theorem check_winner_iff_four_in_line (self : Connect4Game) (player : Z) :
  board_wf (board self) →
  ∃ w, check_winner self player = Ret w ∧
       (w = true ↔ four_in_line (board self) player).
Proof.
  intros Hwf.
  destruct (check_winner_scanned self player Hwf) as (w & Hscan & Hiff).
  exists w. split; [exact Hscan|]. split.
  - intros Hw. apply scanned_four_in_line, Hiff, Hw.
  - intros Hline. apply Hiff. by apply four_in_line_scanned.
Qed.

Lemma check_winner_iff_four_in_line_witness :
  board_wf (board (new_game "g")) ∧
  ∃ w, check_winner (new_game "g") 1 = Ret w ∧
       (w = true ↔ four_in_line (board (new_game "g")) 1).
Proof.
  split; [apply new_game_wf|].
  apply (check_winner_iff_four_in_line (new_game "g") 1), new_game_wf.
Defined.

(** C4. For a column in range with an empty cell, [make_move] succeeds and
    puts the seat's piece into the lowest empty row of the column (the
    empty cell of greatest row index, row 5 being the floor); for a column
    in range without an empty cell, it fails with "Column is full" and the
    game, its board included, is unchanged. *)
Theorem make_move_gravity (self : Connect4Game) (player column : Z) :
  board_wf (board self) →
  0 ≤ column < 7 →
  ((∃ r, (r < 6)%nat ∧ cell (board self) r (Z.to_nat column) = Some 0) →
   ∃ row, (row < 6)%nat ∧
     lowest_empty (board self) (Z.to_nat column) row ∧
     (make_move self player column).2 = Ret (true, "Move successful") ∧
     board (make_move self player column).1
       = setitem (board self) row (Z.to_nat column) player ∧
     cell (board (make_move self player column).1) row (Z.to_nat column)
       = Some player)
  ∧ (column_full (board self) (Z.to_nat column) →
     make_move self player column = (self, Ret (false, "Column is full"))).
Proof.
  intros Hwf Hcol.
  destruct (make_move_outcome self player column Hwf)
    as [Hbad|_ Hfull|row w _ Hrow Hlow Hw Hiff]; [lia|..].
  - split; [|done]. intros (r & Hr & H0). by destruct (Hfull r Hr).
  - split.
    + intros _. exists row.
      assert (board (placed self player row (Z.to_nat column) w)
              = setitem (board self) row (Z.to_nat column) player) as Hb
        by (unfold placed; by destruct w).
      cbn [fst snd]. rewrite Hb. split_and!; [done..|].
      destruct Hlow as [H0 _]. by eapply cell_setitem_eq.
    + intros Hfull. destruct Hlow as [H0 _]. by destruct (Hfull row Hrow).
Qed.

Lemma make_move_gravity_witness :
  board_wf (board (new_game "g")) ∧ 0 ≤ 3 < 7 ∧
  (make_move (new_game "g") 1 3).2 = Ret (true, "Move successful").
Proof.
  split; [apply new_game_wf|]. split; [lia|].
  destruct (make_move_gravity (new_game "g") 1 3 (new_game_wf "g") ltac:(lia))
    as [Hfree _].
  destruct Hfree as (row & _ & _ & Hok & _); [|exact Hok].
  exists 5%nat. split; [lia|reflexivity].
Defined.

(** C10. A successful [make_move] by a seat (a player number other than
    the empty marker 0) changes exactly one cell: the lowest empty row of
    the chosen column goes from 0 to the mover's number; every other cell,
    the [game_id] and the seat-to-participant mapping are as before. *)
Theorem make_move_frame (self self' : Connect4Game) (player column : Z)
    (message : string) :
  board_wf (board self) →
  player ≠ 0 →
  make_move self player column = (self', Ret (true, message)) →
  ∃ row, (row < 6)%nat ∧ 0 ≤ column < 7 ∧
    lowest_empty (board self) (Z.to_nat column) row ∧
    cell (board self) row (Z.to_nat column) = Some 0 ∧
    cell (board self') row (Z.to_nat column) = Some player ∧
    cell (board self') row (Z.to_nat column) ≠ cell (board self) row (Z.to_nat column) ∧
    (∀ r c, (r, c) ≠ (row, Z.to_nat column) →
       cell (board self') r c = cell (board self) r c) ∧
    game_id self' = game_id self ∧
    players self' = players self.
Proof.
  intros Hwf Hp Hmove.
  destruct (make_move_outcome self player column Hwf)
    as [Hbad|_ Hfull|row w Hcol Hrow Hlow Hw Hiff]; [done..|].
  injection Hmove as <- _. exists row.
  assert (board (placed self player row (Z.to_nat column) w)
          = setitem (board self) row (Z.to_nat column) player) as Hb
    by (unfold placed; by destruct w).
  destruct Hlow as [H0 Hlow]. rewrite Hb.
  assert (cell (setitem (board self) row (Z.to_nat column) player) row
            (Z.to_nat column) = Some player) as Hnew
    by (by eapply cell_setitem_eq).
  split_and!; [done|lia|lia|by split|done|done| | |..].
  - rewrite Hnew, H0. congruence.
  - intros r c Hne. by apply cell_setitem_ne.
  - unfold placed. by destruct w.
  - unfold placed. by destruct w.
Qed.

Lemma make_move_frame_witness :
  ∃ row, (row < 6)%nat ∧ 0 ≤ 3 < 7 ∧
    lowest_empty (board (new_game "g")) (Z.to_nat 3) row ∧
    cell (board (new_game "g")) row (Z.to_nat 3) = Some 0 ∧
    cell (board (make_move (new_game "g") 1 3).1) row (Z.to_nat 3) = Some 1 ∧
    cell (board (make_move (new_game "g") 1 3).1) row (Z.to_nat 3)
      ≠ cell (board (new_game "g")) row (Z.to_nat 3) ∧
    (∀ r c, (r, c) ≠ (row, Z.to_nat 3) →
       cell (board (make_move (new_game "g") 1 3).1) r c
       = cell (board (new_game "g")) r c) ∧
    game_id (make_move (new_game "g") 1 3).1 = game_id (new_game "g") ∧
    players (make_move (new_game "g") 1 3).1 = players (new_game "g").
Proof.
  apply (make_move_frame (new_game "g") _ 1 3 "Move successful").
  - apply new_game_wf.
  - lia.
  - reflexivity.
Defined.

(** What a successful [make_move] does to the turn and to the outcome:
    the turn goes to [3 - player] whatever the scan found; [game_over] and
    [winner] are written when the scan found a line of four and are left
    alone otherwise. *)
Lemma make_move_success self self' player column message :
  board_wf (board self) →
  make_move self player column = (self', Ret (true, message)) →
  current_player self' = 3 - player ∧
  (four_in_line (board self') player →
     game_over self' = true ∧ winner self' = Some player) ∧
  (¬ four_in_line (board self') player →
     game_over self' = game_over self ∧ winner self' = winner self).
Proof.
  intros Hwf Hmove.
  destruct (make_move_outcome self player column Hwf)
    as [Hbad|_ Hfull|row w Hcol Hrow Hlow Hw Hiff]; [done..|].
  injection Hmove as <- _. unfold placed.
  destruct w; cbn [current_player board game_over winner set_current_player
                   set_won set_board].
  - split_and!; [done..|]. intros Hno. destruct Hno. by apply Hiff.
  - split_and!; [done| |done]. intros Hline. by apply Hiff in Hline.
Qed.

Lemma make_move_failure self self' player column message :
  board_wf (board self) →
  make_move self player column = (self', Ret (false, message)) →
  self' = self ∧ (message = "Invalid column" ∨ message = "Column is full").
Proof.
  intros Hwf Hmove.
  destruct (make_move_outcome self player column Hwf)
    as [Hbad|_ Hfull|row w Hcol Hrow Hlow Hw Hiff]; [| |done].
  - injection Hmove as <- <-. split; [done|by left].
  - injection Hmove as <- <-. split; [done|by right].
Qed.

(** C2, counterexample.  With three pieces on the floor the first seat is
    to move and plays column 3: the scan finds the line, the game is over
    with winner 1, and the turn has gone from 1 to 2. *)
Lemma winning_move_flips_turn :
  match find_game (games three_in_a_row) "p1" with
  | Some game =>
      current_player game = 1 ∧
      (make_move game 1 3).2 = Ret (true, "Move successful") ∧
      check_winner (make_move game 1 3).1 1 = Ret true ∧
      game_over (make_move game 1 3).1 = true ∧
      winner (make_move game 1 3).1 = Some 1 ∧
      current_player (make_move game 1 3).1 = 2 ∧
      current_player (make_move game 1 3).1 ≠ current_player game
  | None => False
  end.
Proof. vm_compute. split_and!; congruence. Qed.

(** C2, amended.  Every successful move hands the turn to the other seat
    ([3 - player]), a move that creates four-in-a-row included; the move
    that creates four-in-a-row for the moving seat also sets [game_over]
    and makes that seat the winner; a failed move changes nothing. *)
Theorem make_move_turn_and_win (self self' : Connect4Game) (player column : Z)
    (success : bool) (message : string) :
  board_wf (board self) →
  make_move self player column = (self', Ret (success, message)) →
  if success then
    current_player self' = 3 - player ∧
    (four_in_line (board self') player →
       game_over self' = true ∧ winner self' = Some player)
  else self' = self.
Proof.
  intros Hwf Hmove. destruct success.
  - destruct (make_move_success _ _ _ _ _ Hwf Hmove) as (Hturn & Hwin & _).
    by split.
  - by destruct (make_move_failure _ _ _ _ _ Hwf Hmove).
Qed.

Lemma make_move_turn_and_win_witness :
  current_player (make_move (new_game "g") 1 3).1 = 3 - 1 ∧
  (four_in_line (board (make_move (new_game "g") 1 3).1) 1 →
     game_over (make_move (new_game "g") 1 3).1 = true ∧
     winner (make_move (new_game "g") 1 3).1 = Some 1).
Proof.
  apply (make_move_turn_and_win (new_game "g") _ 1 3 true "Move successful").
  - apply new_game_wf.
  - reflexivity.
Defined.

(** C3, counterexample.  One cell is left, the top of column 6, and the
    second seat fills it: the move succeeds, the board is full, neither
    seat has a line of four, and [game_over] is still [False]. *)
Lemma last_cell_is_no_draw :
  match find_game (games one_cell_left) "p1" with
  | Some game =>
      count_empty (board game) = 1%nat ∧
      current_player game = 2 ∧
      (make_move game 2 6).2 = Ret (true, "Move successful") ∧
      count_empty (board (make_move game 2 6).1) = 0%nat ∧
      check_winner (make_move game 2 6).1 1 = Ret false ∧
      check_winner (make_move game 2 6).1 2 = Ret false ∧
      game_over (make_move game 2 6).1 = false ∧
      winner (make_move game 2 6).1 = None
  | None => False
  end.
Proof. vm_compute. split_and!; reflexivity. Qed.

(** C3, amended.  A successful move that fills the last empty cell without
    producing four-in-a-row for the mover leaves [game_over] and [winner]
    as they were (no draw is recorded: a game that was not over is not
    over), and hands the turn to the other seat. *)
Theorem make_move_full_board (self self' : Connect4Game) (player column : Z)
    (message : string) :
  board_wf (board self) →
  make_move self player column = (self', Ret (true, message)) →
  board_full (board self') →
  ¬ four_in_line (board self') player →
  game_over self' = game_over self ∧ winner self' = winner self ∧
  current_player self' = 3 - player.
Proof.
  intros Hwf Hmove _ Hno.
  destruct (make_move_success _ _ _ _ _ Hwf Hmove) as (Hturn & _ & Hsame).
  destruct (Hsame Hno). done.
Qed.

Lemma count_empty_full b : count_empty b = 0%nat → board_full b.
Proof.
  unfold count_empty, board_full, cell. intros Hcount r c Hcell.
  destruct (b !! r) as [cells|] eqn:Hr; simpl in Hcell; [|done].
  assert (0 ∈ filter (λ v, v = 0) (concat b)) as Hin.
  { apply list_elem_of_filter. split; [done|].
    apply list_elem_of_In, in_concat. exists cells.
    split; apply list_elem_of_In; by eapply list_elem_of_lookup_2. }
  apply length_zero_iff_nil in Hcount. rewrite Hcount in Hin.
  by apply elem_of_nil in Hin.
Qed.

Lemma check_winner_false_no_line self player :
  board_wf (board self) →
  check_winner self player = Ret false → ¬ four_in_line (board self) player.
Proof.
  intros Hwf Hscan Hline.
  destruct (check_winner_total self player Hwf) as (w & Hw & Hiff).
  apply Hiff in Hline. congruence.
Qed.

Lemma make_move_full_board_witness :
  game_over (make_move (game_of one_cell_left) 2 6).1
    = game_over (game_of one_cell_left) ∧
  winner (make_move (game_of one_cell_left) 2 6).1
    = winner (game_of one_cell_left) ∧
  current_player (make_move (game_of one_cell_left) 2 6).1 = 3 - 2.
Proof.
  assert (board_wf (board (game_of one_cell_left))) as Hwf
    by (split; vm_compute; repeat constructor).
  apply (make_move_full_board (game_of one_cell_left) _ 2 6 "Move successful").
  - exact Hwf.
  - vm_compute. reflexivity.
  - apply count_empty_full. vm_compute. reflexivity.
  - apply check_winner_false_no_line.
    + apply make_move_wf, Hwf.
    + vm_compute. reflexivity.
Defined.

(** ** Finding the participant's game *)

Section index.
Context `{EqDecision A}.
Implicit Types (xs : list A) (x : A).

Lemma index_Some xs x i : index xs x = Some i → xs !! i = Some x.
Proof.
  revert i. induction xs as [|y xs IH]; intros i; simpl; [done|].
  destruct (decide (y = x)) as [->|Hne].
  - by intros [= <-].
  - destruct (index xs x) as [j|]; simpl; [|done].
    intros [= <-]. by apply IH.
Qed.

Lemma index_None xs x : index xs x = None ↔ x ∉ xs.
Proof.
  induction xs as [|y xs IH]; simpl.
  - split; [|done]. intros _. apply not_elem_of_nil.
  - rewrite not_elem_of_cons. destruct (decide (y = x)) as [->|Hne].
    + split; [done|]. by intros [? _].
    + destruct (index xs x) as [j|] eqn:Hj; simpl.
      * split; [done|]. intros [_ Hnot]. by apply IH in Hnot.
      * split; [|done]. intros _. split; [done|]. by apply IH.
Qed.
End index.

(** The seat lookup finds nothing exactly when the membership test of the
    source is false. *)
Lemma seat_of_None game player_id :
  seat_of game player_id = None ↔ player_id ∉ values (players game).
Proof.
  unfold seat_of. rewrite <- index_None.
  destruct (index (values (players game)) player_id) as [i|] eqn:Hi; simpl; [|done].
  split; [|done]. intros Hnone. apply index_Some in Hi.
  apply lookup_lt_Some in Hi. apply lookup_ge_None in Hnone.
  unfold keys, values in *. rewrite !length_fmap in *. lia.
Qed.

Lemma seat_of_elem game player_id n :
  seat_of game player_id = Some n → (n, player_id) ∈ players game.
Proof.
  unfold seat_of, keys, values.
  destruct (index (players game).*2 player_id) as [i|] eqn:Hi; [|done].
  cbn [mbind option_bind]. intros Hkey. apply index_Some in Hi.
  rewrite list_lookup_fmap in Hi. rewrite list_lookup_fmap in Hkey.
  destruct (players game !! i) as [[n' pid']|] eqn:Hentry; simplify_eq/=.
  by eapply list_elem_of_lookup_2.
Qed.

Lemma seat_of_players game game' player_id :
  players game' = players game → seat_of game' player_id = seat_of game player_id.
Proof. unfold seat_of. by intros ->. Qed.

(** The games before the participant's game do not seat the participant. *)
Lemma find_game_split gs player_id game :
  find_game gs player_id = Some game →
  ∃ pre gid post n,
    gs = pre ++ (gid, game) :: post ∧
    Forall (λ entry, seat_of entry.2 player_id = None) pre ∧
    seat_of game player_id = Some n.
Proof.
  induction gs as [|[gid g] gs IH]; simpl; [done|].
  destruct (seat_of g player_id) as [n|] eqn:Hseat.
  - intros [= <-]. by exists [], gid, gs, n.
  - intros (pre & gid' & post & n & -> & Hpre & Hn)%IH.
    exists ((gid, g) :: pre), gid', post, n. split_and!; [done| |done].
    by constructor.
Qed.

Lemma find_game_app pre gid game post player_id n :
  Forall (λ entry, seat_of entry.2 player_id = None) pre →
  seat_of game player_id = Some n →
  find_game (pre ++ (gid, game) :: post) player_id = Some game.
Proof.
  intros Hpre Hn. induction Hpre as [|[gid' g] pre Hg _ IH]; simpl.
  - by rewrite Hn.
  - simpl in Hg. by rewrite Hg.
Qed.

Lemma route_move_none conns gs player_id column :
  find_game gs player_id = None →
  route_move conns gs player_id column = (gs, [], Ret game_not_found).
Proof.
  induction gs as [|[gid g] gs IH]; simpl; [done|].
  destruct (seat_of g player_id); [done|]. intros Hnone. by rewrite IH.
Qed.

Lemma route_move_app conns pre gid game post player_id column n :
  Forall (λ entry, seat_of entry.2 player_id = None) pre →
  seat_of game player_id = Some n →
  route_move conns (pre ++ (gid, game) :: post) player_id column
  = (pre ++ (gid, (move_in_game conns game n column).1.1) :: post,
     (move_in_game conns game n column).1.2,
     (move_in_game conns game n column).2).
Proof.
  intros Hpre Hn. induction Hpre as [|[gid' g] pre Hg _ IH]; simpl.
  - rewrite Hn. by destruct (move_in_game conns game n column) as [[??]?].
  - simpl in Hg. by rewrite Hg, IH.
Qed.

(** ** [move_in_game] *)

Lemma move_in_game_not_turn conns game n column :
  current_player game ≠ n →
  move_in_game conns game n column = (game, [], Ret not_your_turn).
Proof. intros Hturn. unfold move_in_game. by rewrite bool_decide_eq_true_2. Qed.

Lemma move_in_game_turn conns game column :
  (move_in_game conns game (current_player game) column).1.1
  = (make_move game (current_player game) column).1.
Proof.
  unfold move_in_game. rewrite bool_decide_eq_false_2 by (by intros []).
  destruct (make_move game (current_player game) column) as [game' [[[] msg]|e]];
    [|done..].
  by destruct (notify_players conns (players game') _) as [out [[]|e]].
Qed.

(** The game after a routed request is the game before it or the game
    [make_move] returned. *)
Lemma move_in_game_game conns game n column :
  (move_in_game conns game n column).1.1 = game
  ∨ (move_in_game conns game n column).1.1 = (make_move game n column).1.
Proof.
  destruct (decide (current_player game = n)) as [<-|Hne].
  - right. apply move_in_game_turn.
  - left. by rewrite move_in_game_not_turn.
Qed.

(** ** What a request may change, on any board *)

Lemma drop_piece_frame self player col rows :
  move_frame player self (drop_piece self player col rows).1.
Proof.
  induction rows as [|row rows IH]; simpl.
  - split_and!; [done..|by left].
  - rewrite getitem_cell.
    destruct (cell (board self) row col) as [v|] eqn:Hcell;
      [|split_and!; [done..|by left]].
    destruct (Z.eqb_spec v 0) as [->|Hv]; [|done].
    destruct (check_winner _ player) as [[]|e]; simpl;
      (split_and!; [done..|right; by exists row, col]).
Qed.

Lemma make_move_frame_any self player column :
  move_frame player self (make_move self player column).1.
Proof.
  unfold make_move. case_bool_decide.
  - split_and!; [done..|by left].
  - apply drop_piece_frame.
Qed.

Lemma move_in_game_frame conns game n column :
  move_frame n game (move_in_game conns game n column).1.1.
Proof.
  destruct (move_in_game_game conns game n column) as [->| ->].
  - split_and!; [done..|by left].
  - apply make_move_frame_any.
Qed.

(** ** [handle_move] *)

Lemma handle_move_none self player_id column :
  find_game (games self) player_id = None →
  handle_move self player_id column = (self, [], Ret game_not_found).
Proof.
  intros Hnone. unfold handle_move. rewrite route_move_none by done.
  by destruct self.
Qed.

(** A request of a seated participant is served by [move_in_game] on the
    participant's game, which stays the participant's game. *)
Lemma handle_move_found self player_id column game :
  find_game (games self) player_id = Some game →
  ∃ n, seat_of game player_id = Some n ∧
    find_game (games (handle_move self player_id column).1.1) player_id
      = Some (move_in_game (player_connections self) game n column).1.1 ∧
    (handle_move self player_id column).1.2
      = (move_in_game (player_connections self) game n column).1.2 ∧
    (handle_move self player_id column).2
      = (move_in_game (player_connections self) game n column).2 ∧
    ((move_in_game (player_connections self) game n column).1.1 = game →
     (handle_move self player_id column).1.1 = self).
Proof.
  intros (pre & gid & post & n & Hgs & Hpre & Hn)%find_game_split.
  exists n. split; [done|]. unfold handle_move. rewrite Hgs.
  rewrite (route_move_app _ _ _ _ _ _ _ n) by done. simpl.
  split_and!; [|done..|].
  - apply (find_game_app _ _ _ _ _ n); [done|].
    rewrite <- Hn. apply seat_of_players, move_in_game_frame.
  - intros ->. destruct self; simpl in *. by subst.
Qed.

(** C5. A move request of the seat that is not the current turn is answered
    with the failure "Not your turn"; nothing is sent to anybody and the
    server state (every board, turn and status) is unchanged. *)
Theorem handle_move_not_your_turn (self : Connect4Server) (player_id : string)
    (column : Z) (game : Connect4Game) (seat : Z) :
  find_game (games self) player_id = Some game →
  seat_of game player_id = Some seat →
  current_player game ≠ seat →
  handle_move self player_id column
  = (self, [], Ret [("success", VBool false); ("message", VStr "Not your turn")]).
Proof.
  intros Hfind Hseat Hturn.
  destruct (handle_move_found self player_id column game Hfind)
    as (n & Hn & _ & Hout & Hres & Hsame).
  assert (n = seat) as -> by congruence.
  rewrite move_in_game_not_turn in Hout, Hres, Hsame by done.
  destruct (handle_move self player_id column) as [[self' out] r].
  simpl in *. rewrite Hsame by done. by subst.
Qed.

Lemma handle_move_not_your_turn_witness :
  handle_move two_players "p2" 3
  = (two_players, [], Ret [("success", VBool false); ("message", VStr "Not your turn")]).
Proof.
  apply (handle_move_not_your_turn two_players "p2" 3
           (set_players (new_game "g1") [(1, "p1"); (2, "p2")]) 2).
  - reflexivity.
  - reflexivity.
  - simpl. lia.
Defined.

(** *** The fields of the response *)

(** C9, counterexample.  A participant without a session and a participant
    out of turn get a dict with the two fields [success] and [message]:
    [board], [current_player], [game_over] and [winner] are missing. *)
Lemma short_responses :
  (handle_move new_server "p1" 3).2
    = Ret [("success", VBool false); ("message", VStr "Game not found")] ∧
  dict_get [("success", VBool false); ("message", VStr "Game not found")] "board"
    = None ∧
  (handle_move two_players "p2" 3).2
    = Ret [("success", VBool false); ("message", VStr "Not your turn")] ∧
  dict_get [("success", VBool false); ("message", VStr "Not your turn")] "board"
    = None.
Proof. vm_compute. done. Qed.

(** C9, amended.  Every response returned for a move request has the
    fields [success] and [message].  The response has all six fields
    exactly when the request reached [make_move], that is when the
    participant has a session and it is their turn; a participant without a
    session gets only [success] and [message] ("Game not found"), and so
    does a participant out of turn ("Not your turn"). *)
Theorem handle_move_response_fields (self : Connect4Server) (player_id : string)
    (column : Z) (response : list (string * pyval)) :
  (handle_move self player_id column).2 = Ret response →
  "success" ∈ keys response ∧ "message" ∈ keys response ∧
  match find_game (games self) player_id with
  | None =>
      response = [("success", VBool false); ("message", VStr "Game not found")]
  | Some game =>
      if decide (seat_of game player_id = Some (current_player game))
      then keys response = six_fields
      else response = [("success", VBool false); ("message", VStr "Not your turn")]
  end.
Proof.
  intros Hres.
  destruct (find_game (games self) player_id) as [game|] eqn:Hfind.
  - destruct (handle_move_found self player_id column game Hfind)
      as (n & Hn & _ & _ & Hr & _).
    rewrite Hr in Hres. clear Hr. rewrite Hn.
    destruct (decide (Some n = Some (current_player game))) as [[= ->]|Hne].
    + unfold move_in_game in Hres.
      rewrite bool_decide_eq_false_2 in Hres by (by intros []).
      destruct (make_move game (current_player game) column)
        as [game' [[[] msg]|e]]; [| |done].
      * destruct (notify_players _ (players game') _) as [out [[]|e]]; [|done].
        injection Hres as <-. unfold keys, six_fields. simpl.
        split_and!; [set_solver..|done].
      * injection Hres as <-. unfold keys, six_fields. simpl.
        split_and!; [set_solver..|done].
    + rewrite move_in_game_not_turn in Hres by congruence.
      injection Hres as <-. unfold keys. simpl. split_and!; [set_solver..|done].
  - rewrite handle_move_none in Hres by done.
    injection Hres as <-. unfold keys. simpl. split_and!; [set_solver..|done].
Qed.

Lemma handle_move_response_fields_witness :
  "success" ∈ keys (move_result true "Move successful"
                      (make_move (game_of two_players) 1 3).1) ∧
  "message" ∈ keys (move_result true "Move successful"
                      (make_move (game_of two_players) 1 3).1) ∧
  keys (move_result true "Move successful"
          (make_move (game_of two_players) 1 3).1) = six_fields.
Proof.
  apply (handle_move_response_fields two_players "p1" 3
           (move_result true "Move successful"
              (make_move (game_of two_players) 1 3).1)).
  reflexivity.
Defined.

(** *** Requests after the game is over *)

(** C1, counterexample.  The first seat has won on the floor; the second
    seat then submits column 6.  The request is accepted: the response
    says [success: True], the board has a new piece, the turn goes back to
    the first seat, and the winner becomes the second seat, whose piece
    completed column 6. *)
Lemma move_accepted_after_win :
  match find_game (games won_by_first) "p1",
        find_game (games (handle_move won_by_first "p2" 6).1.1) "p1" with
  | Some game, Some game' =>
      game_over game = true ∧ winner game = Some 1 ∧ current_player game = 2 ∧
      (handle_move won_by_first "p2" 6).2
        = Ret (move_result true "Move successful" game') ∧
      cell (board game) 2 6 = Some 0 ∧ cell (board game') 2 6 = Some 2 ∧
      current_player game' = 1 ∧ winner game' = Some 2
  | _, _ => False
  end.
Proof. vm_compute. done. Qed.

(** C1, amended.  In a session whose [game_over] is set no request is
    refused for that reason; a request is handled as in a session in
    progress.  (1) [game_over] stays set.  (2) A request by the seat that is
    not the current turn fails with "Not your turn" and changes nothing.
    (3) Every request answered with [success: False] leaves the server
    state, the board, turn, status and winner included, unchanged and sends
    nothing.  (4) A request by the seat whose turn it is, for a column in
    range that is not full, is applied: the piece lands in the lowest empty
    row and the turn flips. *)
Theorem handle_move_game_over (self : Connect4Server) (player_id : string)
    (column : Z) (game : Connect4Game) :
  find_game (games self) player_id = Some game →
  game_over game = true →
  board_wf (board game) →
  (∃ game', find_game (games (handle_move self player_id column).1.1) player_id
              = Some game' ∧ game_over game' = true) ∧
  (seat_of game player_id ≠ Some (current_player game) →
   handle_move self player_id column
   = (self, [], Ret [("success", VBool false); ("message", VStr "Not your turn")])) ∧
  (∀ response,
     (handle_move self player_id column).2 = Ret response →
     dict_get response "success" = Some (VBool false) →
     (handle_move self player_id column).1 = (self, [])) ∧
  (seat_of game player_id = Some (current_player game) →
   0 ≤ column < 7 →
   ¬ column_full (board game) (Z.to_nat column) →
   ∃ game' row,
     find_game (games (handle_move self player_id column).1.1) player_id
       = Some game' ∧
     lowest_empty (board game) (Z.to_nat column) row ∧
     board game' = setitem (board game) row (Z.to_nat column) (current_player game) ∧
     current_player game' = 3 - current_player game).
Proof.
  intros Hfind Hover Hwf.
  destruct (handle_move_found self player_id column game Hfind)
    as (n & Hn & Hgame' & Hout & Hres & Hsame).
  split_and!.
  - eexists. split; [exact Hgame'|].
    by apply (move_in_game_frame (player_connections self) game n column).
  - intros Hturn.
    destruct (handle_move self player_id column) as [[self' out] r].
    simpl in *. rewrite move_in_game_not_turn in Hout, Hres, Hsame by congruence.
    simpl in *. rewrite Hsame by done. by subst.
  - intros response Hr Hfail. rewrite Hres in Hr.
    destruct (handle_move self player_id column) as [[self' out] r].
    simpl in *. clear Hres Hgame'. unfold move_in_game in *.
    case_bool_decide as Hturn.
    { simpl in *. rewrite Hsame by done. by subst. }
    destruct (make_move game n column) as [game' [[[] msg]|e]] eqn:Hmove;
      [| |done].
    + destruct (notify_players _ (players game') _) as [out' [[]|e]]; [|done].
      by injection Hr as <-.
    + destruct (make_move_failure _ _ _ _ _ Hwf Hmove) as [-> _].
      simpl in *. rewrite Hsame by done. by subst.
  - intros Hturn Hcol Hroom.
    assert (n = current_player game) as -> by congruence.
    rewrite move_in_game_turn in Hgame'.
    destruct (make_move_outcome game (current_player game) column Hwf)
      as [Hbad|_ Hfull|row w _ Hrow Hlow Hw Hiff]; [lia|done|].
    eexists _, row. split; [exact Hgame'|]. split; [done|].
    unfold placed. by destruct w.
Qed.

Lemma handle_move_game_over_witness :
  ∃ game', find_game (games (handle_move won_by_first "p2" 6).1.1) "p2"
             = Some game' ∧ game_over game' = true.
Proof.
  assert (board_wf (board (game_of won_by_first))) as Hwf
    by (split; vm_compute; repeat constructor).
  apply (handle_move_game_over won_by_first "p2" 6 (game_of won_by_first)).
  - vm_compute. reflexivity.
  - vm_compute. reflexivity.
  - exact Hwf.
Defined.

(** ** [register_player] *)

Section dict_facts.
Context {K V : Type} `{EqDecision K}.
Implicit Types (d : list (K * V)).

Lemma dict_get_set_eq d k v : dict_get (dict_set d k v) k = Some v.
Proof.
  induction d as [|[k' v'] d IH]; simpl.
  - by rewrite decide_True.
  - destruct (decide (k' = k)) as [->|Hne]; simpl.
    + by rewrite decide_True.
    + by rewrite decide_False.
Qed.

Lemma dict_get_set_ne d k k' v : k ≠ k' → dict_get (dict_set d k v) k' = dict_get d k'.
Proof.
  intros Hne. induction d as [|[k0 v0] d IH]; simpl.
  - by rewrite decide_False.
  - destruct (decide (k0 = k)) as [->|Hne0]; simpl.
    + by rewrite !decide_False.
    + by rewrite IH.
Qed.

Lemma dict_get_is_Some d k : is_Some (dict_get d k) ↔ k ∈ keys d.
Proof.
  unfold keys. induction d as [|[k' v'] d IH]; simpl.
  - split; [by intros [? ?]|]. by intros ?%elem_of_nil.
  - rewrite elem_of_cons. destruct (decide (k' = k)) as [->|Hne].
    + split; [by left|by eexists].
    + rewrite IH. split; [by right|]. by intros [->|].
Qed.

Lemma elem_of_dict_set d k v e : e ∈ dict_set d k v → e = (k, v) ∨ e ∈ d.
Proof.
  induction d as [|[k' v'] d IH]; simpl.
  - intros ->%list_elem_of_singleton. by left.
  - destruct (decide (k' = k)) as [->|Hne].
    + intros [->|Hin]%elem_of_cons; [by left|]. right. by right.
    + intros [->|Hin]%elem_of_cons; [right; by left|].
      destruct (IH Hin); [by left|]. right. by right.
Qed.
End dict_facts.

(** C7, counterexample.  (1) The participant waiting alone submits a move,
    which is accepted; the participant who joins next is seated second in
    a session whose turn is seat 2.  (2) The participant waiting alone
    leaves; the next join raises [KeyError] at the first notification:
    nothing is sent and the waiting slot still holds the session. *)
Lemma join_after_move_or_leave :
  match dict_get (games (register_player
                           (run new_server [Join 1%nat "p1" "g1"; Move "p1" 3])
                           2%nat "p2" "g2").1.1) "g1" with
  | Some game => players game = [(1, "p1"); (2, "p2")] ∧ current_player game = 2
  | None => False
  end ∧
  game_waiting (run new_server [Join 1%nat "p1" "g1"; Leave "p1"]) = Some "g1" ∧
  (register_player (run new_server [Join 1%nat "p1" "g1"; Leave "p1"])
     2%nat "p2" "g2").2 = Raise KeyError ∧
  (register_player (run new_server [Join 1%nat "p1" "g1"; Leave "p1"])
     2%nat "p2" "g2").1.2 = [] ∧
  game_waiting (register_player (run new_server [Join 1%nat "p1" "g1"; Leave "p1"])
                  2%nat "p2" "g2").1.1 = Some "g1".
Proof. vm_compute. done. Qed.

(** C7, amended.  A join when no session is waiting creates a session
    with the joiner in seat 1 and turn 1, makes it the waiting session and
    tells the joiner [waiting] with player number 1.  A join when a session
    is waiting whose only participant is still connected seats the joiner in
    seat 2 of that session, tells both participants [started] with their
    own seat numbers, and clears the waiting slot; the join leaves the
    session's turn as it was (seat 1 when no move was made while the
    session waited). *)
Theorem register_player_matchmaking (self : Connect4Server) (websocket : socket)
    (player_id fresh_game_id : string) :
  (game_waiting self = None →
   register_player self websocket player_id fresh_game_id
   = (mkServer
        (dict_set (games self) fresh_game_id
           (set_players (new_game fresh_game_id) [(1, player_id)]))
        (<[player_id := websocket]> (player_connections self))
        (Some fresh_game_id),
      [(websocket, game_status "waiting" fresh_game_id 1)],
      Ret player_id) ∧
   dict_get (games (register_player self websocket player_id fresh_game_id).1.1)
     fresh_game_id
   = Some (set_players (new_game fresh_game_id) [(1, player_id)]) ∧
   current_player (set_players (new_game fresh_game_id) [(1, player_id)]) = 1)
  ∧
  (∀ waiting game first first_socket,
     game_waiting self = Some waiting →
     dict_get (games self) waiting = Some game →
     players game = [(1, first)] →
     first ≠ player_id →
     player_connections self !! first = Some first_socket →
     register_player self websocket player_id fresh_game_id
     = (mkServer
          (dict_set (games self) waiting
             (set_players game [(1, first); (2, player_id)]))
          (<[player_id := websocket]> (player_connections self))
          None,
        [(first_socket, game_status "started" (game_id game) 1);
         (websocket, game_status "started" (game_id game) 2)],
        Ret player_id) ∧
     dict_get (games (register_player self websocket player_id fresh_game_id).1.1)
       waiting
     = Some (set_players game [(1, first); (2, player_id)]) ∧
     current_player (set_players game [(1, first); (2, player_id)])
     = current_player game).
Proof.
  split.
  - intros Hnone. unfold register_player. rewrite Hnone. simpl.
    split_and!; [done| |done]. apply dict_get_set_eq.
  - intros waiting game first first_socket Hwait Hgame Hplayers Hfresh Hconn.
    unfold register_player. rewrite Hwait, Hgame, Hplayers. simpl.
    rewrite lookup_insert_ne by done. rewrite Hconn, lookup_insert_eq. simpl.
    split_and!; [done| |done]. apply dict_get_set_eq.
Qed.

Lemma register_player_matchmaking_witness :
  register_player (run new_server [Join 1%nat "p1" "g1"]) 2%nat "p2" "g2"
  = (mkServer
       (dict_set (games (run new_server [Join 1%nat "p1" "g1"])) "g1"
          (set_players (set_players (new_game "g1") [(1, "p1")])
             [(1, "p1"); (2, "p2")]))
       (<["p2" := 2%nat]> (player_connections (run new_server [Join 1%nat "p1" "g1"])))
       None,
     [(1%nat, game_status "started" "g1" 1); (2%nat, game_status "started" "g1" 2)],
     Ret "p2").
Proof.
  destruct (register_player_matchmaking
              (run new_server [Join 1%nat "p1" "g1"]) 2%nat "p2" "g2") as [_ Hjoin].
  apply (Hjoin "g1" (set_players (new_game "g1") [(1, "p1")]) "p1" 1%nat).
  - reflexivity.
  - reflexivity.
  - reflexivity.
  - discriminate.
  - vm_compute. reflexivity.
Defined.

(** ** Cells over a run of requests *)

Lemma cell_step_trans v1 v2 v3 : cell_step v1 v2 → cell_step v2 v3 → cell_step v1 v3.
Proof. unfold cell_step. lia. Qed.

Lemma game_le_refl game : game_le game game.
Proof. split; [done|]. intros row col v Hv. exists v. split; [done|by left]. Qed.

Lemma game_le_trans g1 g2 g3 : game_le g1 g2 → game_le g2 g3 → game_le g1 g3.
Proof.
  intros [Hp12 H12] [Hp23 H23]. split; [congruence|].
  intros row col v Hv. destruct (H12 _ _ _ Hv) as (v2 & Hv2 & Hs12).
  destruct (H23 _ _ _ Hv2) as (v3 & Hv3 & Hs23).
  exists v3. split; [done|]. by eapply cell_step_trans.
Qed.

Lemma games_le_refl gs : games_le gs gs.
Proof. apply Forall2_same_length_lookup_2; [done|].
  intros i e e' He He'. simplify_eq. split; [done|apply game_le_refl]. Qed.

Lemma games_le_trans gs1 gs2 gs3 : games_le gs1 gs2 → games_le gs2 gs3 → games_le gs1 gs3.
Proof.
  unfold games_le. intros H12. revert gs3.
  induction H12 as [|e1 e2 gs1 gs2 [Hk12 Hg12] _ IH]; intros gs3 H23.
  - by inversion H23.
  - inversion H23 as [|? e3 ? gs3' [Hk23 Hg23] Hrest]; subst.
    constructor; [|by apply IH].
    split; [congruence|by eapply game_le_trans].
Qed.

Lemma move_frame_le n game game' :
  n = 1 ∨ n = 2 → move_frame n game game' → game_le game game'.
Proof.
  intros Hn (Hplayers & _ & _ & [Hboard|(row & col & H0 & Hboard)]).
  - split; [done|]. rewrite Hboard. intros r c v Hv. exists v. split; [done|by left].
  - split; [done|]. rewrite Hboard. intros r c v Hv.
    destruct (decide ((r, c) = (row, col))) as [[= -> ->]|Hne].
    + exists n. split; [by eapply cell_setitem_eq|].
      right. split; [congruence|done].
    + exists v. split; [by rewrite cell_setitem_ne|by left].
Qed.

Lemma route_move_le conns gs player_id column :
  Forall (λ entry, seats_ok entry.2) gs →
  games_le gs (route_move conns gs player_id column).1.1.
Proof.
  induction 1 as [|[gid game] gs Hseats _ IH]; simpl; [constructor|].
  destruct (seat_of game player_id) as [n|] eqn:Hseat.
  - pose proof (move_in_game_frame conns game n column) as Hframe.
    destruct (move_in_game conns game n column) as [[game' out] r]. simpl in *.
    constructor; [|apply games_le_refl]. split; [done|].
    apply (move_frame_le n); [|done].
    by apply (Hseats n player_id), seat_of_elem.
  - destruct (route_move conns gs player_id column) as [[gs' out] r]. simpl in *.
    constructor; [|done]. split; [done|apply game_le_refl].
Qed.

Lemma games_le_seats_ok gs gs' :
  games_le gs gs' →
  Forall (λ entry, seats_ok entry.2) gs → Forall (λ entry, seats_ok entry.2) gs'.
Proof.
  induction 1 as [|e e' gs gs' [_ [Hplayers _]] _ IH]; [done|].
  intros [Hseats Hrest]%Forall_cons. constructor; [|by apply IH].
  unfold seats_ok. by rewrite Hplayers.
Qed.

Lemma submit_le self requests :
  Forall (λ entry, seats_ok entry.2) (games self) →
  games_le (games self) (games (submit self requests)).
Proof.
  unfold submit, run. revert self.
  induction requests as [|[player_id column] requests IH]; intros self Hseats; simpl.
  - apply games_le_refl.
  - assert (games_le (games self) (games (handle_move self player_id column).1.1))
      as Hstep.
    { unfold handle_move.
      pose proof (route_move_le (player_connections self) (games self)
                    player_id column Hseats) as Hle.
      by destruct (route_move _ _ _ _) as [[gs' out] r]. }
    eapply games_le_trans; [exact Hstep|].
    apply IH. by eapply games_le_seats_ok.
Qed.

Lemma games_le_cell_at self self' k row col v :
  games_le (games self) (games self') →
  cell_at self k row col = Some v →
  ∃ v', cell_at self' k row col = Some v' ∧ cell_step v v'.
Proof.
  unfold cell_at. intros Hle Hcell.
  destruct (games self !! k) as [entry|] eqn:Hentry; [|done].
  destruct (Forall2_lookup_l _ _ _ _ _ Hle Hentry) as (entry' & -> & _ & _ & Hcells).
  by apply Hcells.
Qed.

(** ** Invariants of the server *)

Lemma dict_get_elem {K V : Type} `{EqDecision K} (d : list (K * V)) k v :
  dict_get d k = Some v → (k, v) ∈ d.
Proof.
  induction d as [|[k' v'] d IH]; simpl; [done|].
  destruct (decide (k' = k)) as [->|Hne].
  - intros [= ->]. by left.
  - intros Hget. right. by apply IH.
Qed.

Lemma games_le_keys gs gs' : games_le gs gs' → keys gs' = keys gs.
Proof.
  unfold keys. induction 1 as [|e e' gs gs' [Hkey _] _ IH]; [done|].
  rewrite !fmap_cons. by rewrite Hkey, IH.
Qed.

Lemma handle_move_le self player_id column :
  seats_all_ok self →
  games_le (games self) (games (handle_move self player_id column).1.1).
Proof.
  intros Hseats. unfold handle_move.
  pose proof (route_move_le (player_connections self) (games self)
                player_id column Hseats) as Hle.
  by destruct (route_move _ _ _ _) as [[gs' out] r].
Qed.

Lemma register_player_seats_ok self websocket player_id fresh_game_id :
  seats_all_ok self →
  seats_all_ok (register_player self websocket player_id fresh_game_id).1.1.
Proof.
  unfold seats_all_ok, register_player. intros Hseats.
  destruct (game_waiting self) as [waiting|]; simpl.
  - destruct (dict_get (games self) waiting) as [game|] eqn:Hgame; [|done].
    assert (Forall (λ entry, seats_ok entry.2)
              (dict_set (games self) waiting
                 (set_players game (dict_set (players game) 2 player_id)))) as Hnew.
    { rewrite Forall_forall in Hseats. apply Forall_forall.
      intros entry [->|Hold]%elem_of_dict_set; [|by apply Hseats].
      intros n pid [[= -> ->]|Hin]%elem_of_dict_set; [by right|].
      apply dict_get_elem in Hgame. by apply (Hseats _ Hgame n pid). }
    destruct (notify_players _ _ _) as [out [[]|e]]; done.
  - rewrite Forall_forall in Hseats. apply Forall_forall.
    intros entry [->|Hold]%elem_of_dict_set; [|by apply Hseats].
    intros n pid Hin. simpl in Hin.
    apply list_elem_of_singleton in Hin as [= -> ->]. by left.
Qed.

Lemma register_player_waiting_ok self websocket player_id fresh_game_id :
  waiting_ok self →
  waiting_ok (register_player self websocket player_id fresh_game_id).1.1.
Proof.
  unfold waiting_ok, register_player. intros Hwait.
  destruct (game_waiting self) as [waiting|] eqn:Hw; simpl.
  - destruct (dict_get (games self) waiting) as [game|] eqn:Hgame.
    + destruct (notify_players _ _ _) as [out [[]|e]]; simpl; [done|].
      intros ? [= <-]. rewrite dict_get_set_eq. by eexists.
    + simpl. intros ? [= <-]. by apply Hwait.
  - intros ? [= <-]. rewrite dict_get_set_eq. by eexists.
Qed.

(** Both hold in every state the server reaches from its start, whatever
    the participants do. *)
Lemma run_invariant es :
  seats_all_ok (run new_server es) ∧ waiting_ok (run new_server es).
Proof.
  unfold run.
  assert (seats_all_ok new_server ∧ waiting_ok new_server) as Hinit.
  { split; [constructor|]. by intros waiting. }
  revert Hinit. generalize new_server.
  induction es as [|e es IH]; intros self [Hseats Hwait]; simpl; [done|].
  apply IH. destruct e as [ws pid gid|pid column|pid]; simpl.
  - split; [by apply register_player_seats_ok|by apply register_player_waiting_ok].
  - pose proof (handle_move_le self pid column Hseats) as Hle. split.
    + by eapply games_le_seats_ok.
    + intros waiting Hw. apply dict_get_is_Some.
      rewrite (games_le_keys _ _ Hle). apply dict_get_is_Some, Hwait.
      rewrite <- Hw. unfold handle_move.
      by destruct (route_move _ _ _ _) as [[gs' out] r].
  - done.
Qed.

(** C8. Over every sequence of move requests, accepted or rejected, a
    board cell changes at most once, and only from empty (0) to a seat's
    marker (1 or 2): across two consecutive runs of requests each step of
    the cell is such a change or none, a cell that is not empty keeps its
    value, and a cell that changed in the first run does not change in the
    second. *)
Theorem cells_change_at_most_once (self : Connect4Server)
    (requests1 requests2 : list (string * Z)) (k row col : nat) (v : Z) :
  seats_all_ok self →
  cell_at self k row col = Some v →
  ∃ v1 v2,
    cell_at (submit self requests1) k row col = Some v1 ∧
    cell_at (submit (submit self requests1) requests2) k row col = Some v2 ∧
    cell_step v v1 ∧ cell_step v1 v2 ∧
    (v ≠ 0 → v1 = v ∧ v2 = v) ∧
    (v1 ≠ v → v2 = v1).
Proof.
  intros Hseats Hcell.
  pose proof (submit_le self requests1 Hseats) as Hle1.
  pose proof (submit_le (submit self requests1) requests2
                (games_le_seats_ok _ _ Hle1 Hseats)) as Hle2.
  destruct (games_le_cell_at _ _ _ _ _ _ Hle1 Hcell) as (v1 & Hv1 & Hs1).
  destruct (games_le_cell_at _ _ _ _ _ _ Hle2 Hv1) as (v2 & Hv2 & Hs2).
  exists v1, v2. split_and!; [done..| |]; unfold cell_step in *; lia.
Qed.

Lemma cells_change_at_most_once_witness :
  ∃ v1 v2,
    cell_at (submit two_players [("p1", 3); ("p1", 3)]) 0 5 3 = Some v1 ∧
    cell_at (submit (submit two_players [("p1", 3); ("p1", 3)]) [("p2", 3)]) 0 5 3
      = Some v2 ∧
    cell_step 0 v1 ∧ cell_step v1 v2 ∧
    (0 ≠ 0 → v1 = 0 ∧ v2 = 0) ∧
    (v1 ≠ 0 → v2 = v1).
Proof.
  apply (cells_change_at_most_once two_players
           [("p1", 3); ("p1", 3)] [("p2", 3)] 0 5 3 0).
  - apply (run_invariant [Join 1%nat "p1" "g1"; Join 2%nat "p2" "g2"]).
  - reflexivity.
Defined.

(** * Further properties of the server *)

(** ** Requests that fail or find no session *)

(** A request served by [move_in_game] without a change of the game leaves
    the server as it was. *)
Lemma handle_move_via self player_id column game n out r :
  find_game (games self) player_id = Some game →
  seat_of game player_id = Some n →
  move_in_game (player_connections self) game n column = (game, out, r) →
  handle_move self player_id column = (self, out, r).
Proof.
  intros Hfind Hseat Hserve.
  destruct (handle_move_found self player_id column game Hfind)
    as (n' & Hn' & _ & Hout & Hres & Hsame).
  assert (n' = n) as -> by congruence.
  rewrite Hserve in Hout, Hres, Hsame.
  destruct (handle_move self player_id column) as [[self' out'] r'].
  simpl in *. rewrite Hsame by done. by subst.
Qed.

Lemma move_in_game_failed conns game column message :
  make_move game (current_player game) column = (game, Ret (false, message)) →
  move_in_game conns game (current_player game) column
  = (game, [], Ret (move_result false message game)).
Proof.
  intros Hmove. unfold move_in_game.
  rewrite bool_decide_eq_false_2 by (by intros []). by rewrite Hmove.
Qed.

Lemma move_in_game_applied conns game game' column message :
  make_move game (current_player game) column = (game', Ret (true, message)) →
  move_in_game conns game (current_player game) column
  = (game',
     (notify_players conns (players game') (λ _, game_update game')).1,
     match (notify_players conns (players game') (λ _, game_update game')).2 with
     | Raise e => Raise e
     | Ret _ => Ret (move_result true message game')
     end).
Proof.
  intros Hmove. unfold move_in_game.
  rewrite bool_decide_eq_false_2 by (by intros []). rewrite Hmove.
  by destruct (notify_players conns (players game') _) as [out [[]|e]].
Qed.

(** X1. A request of the seat whose turn it is with a column below 0 or
    above 6 is answered with [success: False] and "Invalid column", together
    with the unchanged board, turn and outcome of the game; nothing is
    broadcast and the server state is unchanged.  This holds whatever the
    state of the game, won games included. *)
Theorem handle_move_invalid_column (self : Connect4Server) (player_id : string)
    (column : Z) (game : Connect4Game) :
  find_game (games self) player_id = Some game →
  seat_of game player_id = Some (current_player game) →
  column < 0 ∨ column >= 7 →
  handle_move self player_id column
  = (self, [],
     Ret [("success", VBool false); ("message", VStr "Invalid column");
          ("board", VBoard (board game));
          ("current_player", VInt (current_player game));
          ("game_over", VBool (game_over game));
          ("winner", of_winner (winner game))]).
Proof.
  intros Hfind Hseat Hcol.
  apply (handle_move_via _ _ _ game (current_player game)); [done..|].
  apply move_in_game_failed. unfold make_move.
  by rewrite bool_decide_eq_true_2.
Qed.

Lemma handle_move_invalid_column_witness :
  handle_move two_players "p1" 7
  = (two_players, [],
     Ret [("success", VBool false); ("message", VStr "Invalid column");
          ("board", VBoard (board (game_of two_players)));
          ("current_player", VInt 1); ("game_over", VBool false);
          ("winner", VNone)]).
Proof.
  apply (handle_move_invalid_column two_players "p1" 7 (game_of two_players)).
  - reflexivity.
  - reflexivity.
  - right. lia.
Defined.

(** X2. A request of the seat whose turn it is for a column in range that
    has no empty cell is answered with [success: False] and "Column is
    full", together with the unchanged board, turn and outcome; nothing is
    broadcast and the server state is unchanged. *)
Theorem handle_move_column_full (self : Connect4Server) (player_id : string)
    (column : Z) (game : Connect4Game) :
  find_game (games self) player_id = Some game →
  board_wf (board game) →
  seat_of game player_id = Some (current_player game) →
  0 ≤ column < 7 →
  column_full (board game) (Z.to_nat column) →
  handle_move self player_id column
  = (self, [],
     Ret [("success", VBool false); ("message", VStr "Column is full");
          ("board", VBoard (board game));
          ("current_player", VInt (current_player game));
          ("game_over", VBool (game_over game));
          ("winner", of_winner (winner game))]).
Proof.
  intros Hfind Hwf Hseat Hcol Hfull.
  apply (handle_move_via _ _ _ game (current_player game)); [done..|].
  apply move_in_game_failed.
  destruct (make_move_outcome game (current_player game) column Hwf)
    as [Hbad|_ _|row w _ Hrow [H0 _] _ _]; [lia|done|].
  by destruct (Hfull row Hrow).
Qed.

(** Column 0 filled by six alternating moves; the first seat is to move. *)
Lemma handle_move_column_full_witness :
  handle_move (run two_players (alternate "p1" "p2" [0; 0; 0; 0; 0; 0])) "p1" 0
  = (run two_players (alternate "p1" "p2" [0; 0; 0; 0; 0; 0]), [],
     Ret [("success", VBool false); ("message", VStr "Column is full");
          ("board", VBoard [[2; 0; 0; 0; 0; 0; 0]; [1; 0; 0; 0; 0; 0; 0];
                            [2; 0; 0; 0; 0; 0; 0]; [1; 0; 0; 0; 0; 0; 0];
                            [2; 0; 0; 0; 0; 0; 0]; [1; 0; 0; 0; 0; 0; 0]]);
          ("current_player", VInt 1); ("game_over", VBool false);
          ("winner", VNone)]).
Proof.
  apply (handle_move_column_full
           (run two_players (alternate "p1" "p2" [0; 0; 0; 0; 0; 0])) "p1" 0
           (game_of (run two_players (alternate "p1" "p2" [0; 0; 0; 0; 0; 0])))).
  - vm_compute. reflexivity.
  - split; vm_compute; repeat constructor.
  - vm_compute. reflexivity.
  - lia.
  - intros r Hr. do 6 (destruct r as [|r]; [vm_compute; discriminate|]). lia.
Defined.

(** X3. A request of a participant who is in no game's [players] is
    answered with [success: False] and "Game not found"; nothing is sent and
    the server state is unchanged. *)
Theorem handle_move_no_session (self : Connect4Server) (player_id : string)
    (column : Z) :
  (∀ entry, entry ∈ games self → player_id ∉ values (players entry.2)) →
  handle_move self player_id column
  = (self, [], Ret [("success", VBool false); ("message", VStr "Game not found")]).
Proof.
  intros Hnone. apply handle_move_none.
  induction (games self) as [|[gid game] gs IH]; simpl; [done|].
  assert (seat_of game player_id = None) as ->.
  { apply seat_of_None, (Hnone (gid, game)). left. }
  apply IH. intros entry Hin. apply Hnone. by right.
Qed.

Lemma handle_move_no_session_witness :
  handle_move two_players "p3" 3
  = (two_players, [],
     Ret [("success", VBool false); ("message", VStr "Game not found")]).
Proof.
  apply (handle_move_no_session two_players "p3" 3).
  intros entry Hin. apply list_elem_of_In in Hin.
  destruct Hin as [<-|[]]. vm_compute.
  intros Hin. apply list_elem_of_In in Hin.
  destruct Hin as [Hp|[Hp|[]]]; discriminate.
Defined.

(** ** Accepted requests *)

Lemma notify_players_missing conns ps msg n gone :
  (n, gone) ∈ ps → conns !! gone = None →
  (notify_players conns ps msg).2 = Raise KeyError.
Proof.
  intros Hin Hgone. induction ps as [|[m pid] ps IH]; simpl.
  - by apply elem_of_nil in Hin.
  - destruct (conns !! pid) as [sock|] eqn:Hsock; [|done].
    destruct (notify_players conns ps msg) as [out r] eqn:Hrest. simpl in *.
    apply IH. apply elem_of_cons in Hin as [[= -> ->]|Hin]; [congruence|done].
Qed.

(** An accepted move, on a board of the source's size. *)
Lemma make_move_accepted game player column :
  board_wf (board game) →
  0 ≤ column < 7 →
  ¬ column_full (board game) (Z.to_nat column) →
  ∃ row w,
    (row < 6)%nat ∧ lowest_empty (board game) (Z.to_nat column) row ∧
    make_move game player column
    = (placed game player row (Z.to_nat column) w, Ret (true, "Move successful")).
Proof.
  intros Hwf Hcol Hroom.
  destruct (make_move_outcome game player column Hwf)
    as [Hbad|_ Hfull|row w _ Hrow Hlow _ _]; [lia|done|].
  by exists row, w.
Qed.

Lemma placed_players game player row col w :
  players (placed game player row col w) = players game.
Proof. unfold placed. by destruct w. Qed.

Lemma placed_board game player row col w :
  board (placed game player row col w) = setitem (board game) row col player.
Proof. unfold placed. by destruct w. Qed.

Lemma placed_current_player game player row col w :
  current_player (placed game player row col w) = 3 - player.
Proof. unfold placed. by destruct w. Qed.

(** X4. When the seat whose turn it is submits a column in range that is
    not full, and both participants of the game are connected, the move is
    applied and one [game_update] with the new board, turn and outcome is
    sent to each participant, seat 1 first; the requester's response is
    [success: True], "Move successful", with the same new board, turn and
    outcome. *)
Theorem handle_move_broadcast (self : Connect4Server) (player_id : string)
    (column : Z) (game : Connect4Game) (first second : string)
    (first_socket second_socket : socket) :
  find_game (games self) player_id = Some game →
  board_wf (board game) →
  seat_of game player_id = Some (current_player game) →
  players game = [(1, first); (2, second)] →
  player_connections self !! first = Some first_socket →
  player_connections self !! second = Some second_socket →
  0 ≤ column < 7 →
  ¬ column_full (board game) (Z.to_nat column) →
  ∃ game' row,
    lowest_empty (board game) (Z.to_nat column) row ∧
    board game' = setitem (board game) row (Z.to_nat column) (current_player game) ∧
    find_game (games (handle_move self player_id column).1.1) player_id
      = Some game' ∧
    (handle_move self player_id column).1.2
      = [(first_socket, game_update game'); (second_socket, game_update game')] ∧
    (handle_move self player_id column).2
      = Ret [("success", VBool true); ("message", VStr "Move successful");
             ("board", VBoard (board game'));
             ("current_player", VInt (current_player game'));
             ("game_over", VBool (game_over game'));
             ("winner", of_winner (winner game'))].
Proof.
  intros Hfind Hwf Hseat Hplayers Hfirst Hsecond Hcol Hroom.
  destruct (make_move_accepted game (current_player game) column Hwf Hcol Hroom)
    as (row & w & Hrow & Hlow & Hmove).
  destruct (handle_move_found self player_id column game Hfind)
    as (n & Hn & Hgame' & Hout & Hres & _).
  assert (n = current_player game) as -> by congruence.
  rewrite (move_in_game_applied _ _ _ _ _ Hmove) in Hgame', Hout, Hres.
  rewrite placed_players, Hplayers in Hout, Hres. simpl in Hgame', Hout, Hres.
  rewrite Hfirst, Hsecond in Hout, Hres. simpl in Hout, Hres.
  eexists _, row. split; [exact Hlow|]. split; [apply placed_board|].
  split; [exact Hgame'|]. split; [exact Hout|exact Hres].
Qed.

Lemma handle_move_broadcast_witness :
  ∃ game' row,
    lowest_empty (board (game_of two_players)) (Z.to_nat 3) row ∧
    board game' = setitem (board (game_of two_players)) row (Z.to_nat 3)
                    (current_player (game_of two_players)) ∧
    find_game (games (handle_move two_players "p1" 3).1.1) "p1" = Some game' ∧
    (handle_move two_players "p1" 3).1.2
      = [(1%nat, game_update game'); (2%nat, game_update game')] ∧
    (handle_move two_players "p1" 3).2
      = Ret [("success", VBool true); ("message", VStr "Move successful");
             ("board", VBoard (board game'));
             ("current_player", VInt (current_player game'));
             ("game_over", VBool (game_over game'));
             ("winner", of_winner (winner game'))].
Proof.
  apply (handle_move_broadcast two_players "p1" 3 (game_of two_players)
           "p1" "p2" 1%nat 2%nat).
  - reflexivity.
  - apply new_game_wf.
  - reflexivity.
  - reflexivity.
  - vm_compute. reflexivity.
  - vm_compute. reflexivity.
  - lia.
  - intros Hfull. apply (Hfull 5%nat); [lia|reflexivity].
Defined.

(** X5. When a participant of the game has no connection any more (the
    source does no cleanup when a participant leaves), an acceptable move
    of the seat whose turn it is is still applied to the game, piece and
    turn, but [handle_move] raises [KeyError] in the broadcast and returns
    no response. *)
Theorem handle_move_peer_gone (self : Connect4Server) (player_id : string)
    (column : Z) (game : Connect4Game) (n : Z) (gone : string) :
  find_game (games self) player_id = Some game →
  board_wf (board game) →
  seat_of game player_id = Some (current_player game) →
  (n, gone) ∈ players game →
  player_connections self !! gone = None →
  0 ≤ column < 7 →
  ¬ column_full (board game) (Z.to_nat column) →
  (handle_move self player_id column).2 = Raise KeyError ∧
  ∃ game' row,
    find_game (games (handle_move self player_id column).1.1) player_id
      = Some game' ∧
    lowest_empty (board game) (Z.to_nat column) row ∧
    board game' = setitem (board game) row (Z.to_nat column) (current_player game) ∧
    current_player game' = 3 - current_player game.
Proof.
  intros Hfind Hwf Hseat Hin Hgone Hcol Hroom.
  destruct (make_move_accepted game (current_player game) column Hwf Hcol Hroom)
    as (row & w & Hrow & Hlow & Hmove).
  destruct (handle_move_found self player_id column game Hfind)
    as (m & Hm & Hgame' & _ & Hres & _).
  assert (m = current_player game) as -> by congruence.
  rewrite (move_in_game_applied _ _ _ _ _ Hmove) in Hgame', Hres.
  cbn [fst snd] in Hgame', Hres. split.
  - rewrite Hres.
    rewrite (notify_players_missing _ _ _ n gone); [done| |done].
    by rewrite placed_players.
  - eexists _, row. split; [exact Hgame'|]. split; [exact Hlow|].
    split; [apply placed_board|apply placed_current_player].
Qed.

Lemma handle_move_peer_gone_witness :
  (handle_move (run two_players [Leave "p2"]) "p1" 3).2 = Raise KeyError ∧
  ∃ game' row,
    find_game (games (handle_move (run two_players [Leave "p2"]) "p1" 3).1.1) "p1"
      = Some game' ∧
    lowest_empty (board (game_of two_players)) (Z.to_nat 3) row ∧
    board game' = setitem (board (game_of two_players)) row (Z.to_nat 3)
                    (current_player (game_of two_players)) ∧
    current_player game' = 3 - current_player (game_of two_players).
Proof.
  apply (handle_move_peer_gone (run two_players [Leave "p2"]) "p1" 3
           (game_of two_players) 2 "p2").
  - reflexivity.
  - apply new_game_wf.
  - reflexivity.
  - right. left.
  - vm_compute. reflexivity.
  - lia.
  - intros Hfull. apply (Hfull 5%nat); [lia|reflexivity].
Defined.

(** What a move request does to the list of games, entry by entry. *)
Lemma route_move_frame conns gs player_id column :
  Forall2 (λ entry entry',
             entry'.1 = entry.1 ∧
             (seat_of entry.2 player_id = None → entry' = entry) ∧
             players entry'.2 = players entry.2 ∧
             game_id entry'.2 = game_id entry.2)
    gs (route_move conns gs player_id column).1.1.
Proof.
  induction gs as [|[gid game] gs IH]; simpl; [constructor|].
  destruct (seat_of game player_id) as [n|] eqn:Hseat.
  - pose proof (move_in_game_frame conns game n column) as (Hplayers & Hid & _).
    destruct (move_in_game conns game n column) as [[game' out] r]. simpl in *.
    constructor; [split_and!; [done|simpl; congruence|done..]|].
    apply Forall2_same_length_lookup_2; [done|].
    intros i e e' He He'. by simplify_eq.
  - destruct (route_move conns gs player_id column) as [[gs' out] r]. simpl in *.
    constructor; [by split_and!|done].
Qed.

(** X6. A move request changes no connection and not the waiting slot,
    keeps the ids of the games in their order, and leaves every game that
    does not seat the requester untouched; in the requester's game the
    seats and the [game_id] are unchanged. *)
Theorem handle_move_locality (self : Connect4Server) (player_id : string)
    (column : Z) :
  player_connections (handle_move self player_id column).1.1
    = player_connections self ∧
  game_waiting (handle_move self player_id column).1.1 = game_waiting self ∧
  keys (games (handle_move self player_id column).1.1) = keys (games self) ∧
  (∀ k entry,
     games self !! k = Some entry →
     seat_of entry.2 player_id = None →
     games (handle_move self player_id column).1.1 !! k = Some entry) ∧
  (∀ k entry,
     games self !! k = Some entry →
     ∃ entry',
       games (handle_move self player_id column).1.1 !! k = Some entry' ∧
       entry'.1 = entry.1 ∧
       players entry'.2 = players entry.2 ∧
       game_id entry'.2 = game_id entry.2).
Proof.
  unfold handle_move.
  pose proof (route_move_frame (player_connections self) (games self)
                player_id column) as Hall.
  destruct (route_move _ (games self) player_id column) as [[gs' out] r].
  simpl in *. split_and!; [done..| | |].
  - unfold keys. induction Hall as [|e e' gs gs'' (Hkey & _) _ IH]; [done|].
    rewrite !fmap_cons. by rewrite Hkey, IH.
  - intros k entry Hentry Hseat.
    destruct (Forall2_lookup_l _ _ _ _ _ Hall Hentry) as (entry' & -> & _ & Hsame & _).
    by rewrite Hsame.
  - intros k entry Hentry.
    destruct (Forall2_lookup_l _ _ _ _ _ Hall Hentry)
      as (entry' & -> & Hkey & _ & Hplayers & Hid).
    by exists entry'.
Qed.

(** ** Matchmaking *)

(** X7. Two joins in a row under different identities, from a state with
    no waiting session, pair the two participants: the second join tells
    both [started] with seats 1 and 2 and the id of the game the first join
    created, the waiting slot is empty again, and that game has an empty
    board, turn 1, no outcome, and the two participants in seats 1 and 2,
    both connected. *)
Theorem two_joins_pair (self : Connect4Server) (socket1 socket2 : socket)
    (player1 player2 game_id1 game_id2 : string) :
  game_waiting self = None →
  player1 ≠ player2 →
  register_player (register_player self socket1 player1 game_id1).1.1
    socket2 player2 game_id2
  = (mkServer
       (dict_set (games self) game_id1
          (mkGame game_id1 (replicate 6 (replicate 7 0)) 1
             [(1, player1); (2, player2)] false None 2))
       (<[player2 := socket2]> (<[player1 := socket1]> (player_connections self)))
       None,
     [(socket1, game_status "started" game_id1 1);
      (socket2, game_status "started" game_id1 2)],
     Ret player2).
Proof.
  intros Hnone Hne. unfold register_player at 2. rewrite Hnone.
  unfold register_player. cbn [fst snd game_waiting games player_connections].
  rewrite dict_get_set_eq. cbn [set_players players new_game dict_set game_id].
  rewrite decide_False by done. cbn [notify_players dict_set].
  rewrite lookup_insert_ne by done. rewrite !lookup_insert_eq.
  f_equal. f_equal. f_equal.
  generalize (games self). intros gs.
  induction gs as [|[k g] gs IH]; simpl.
  - by rewrite decide_True.
  - destruct (decide (k = game_id1)) as [->|Hk]; simpl.
    + by rewrite decide_True.
    + rewrite decide_False by done. by rewrite IH.
Qed.

Lemma two_joins_pair_witness :
  register_player (register_player new_server 1%nat "p1" "g1").1.1 2%nat "p2" "g2"
  = (mkServer
       (dict_set (games new_server) "g1"
          (mkGame "g1" (replicate 6 (replicate 7 0)) 1
             [(1, "p1"); (2, "p2")] false None 2))
       (<["p2" := 2%nat]> (<["p1" := 1%nat]> (player_connections new_server)))
       None,
     [(1%nat, game_status "started" "g1" 1); (2%nat, game_status "started" "g1" 2)],
     Ret "p2").
Proof.
  apply (two_joins_pair new_server 1%nat 2%nat "p1" "p2" "g1" "g2").
  - reflexivity.
  - discriminate.
Defined.

Lemma route_move_dict_get conns gs player_id column k game :
  dict_get gs k = Some game →
  ∃ game', dict_get (route_move conns gs player_id column).1.1 k = Some game' ∧
           players game' = players game.
Proof.
  pose proof (route_move_frame conns gs player_id column) as Hall.
  induction Hall as [|[k1 g1] [k1' g1'] gs gs' (Hkey & _ & Hplayers & _) _ IH];
    simpl in *; [done|]. subst k1'.
  destruct (decide (k1 = k)) as [->|Hne].
  - intros [= <-]. by exists g1'.
  - apply IH.
Qed.

Lemma stuck_step self waiting first e :
  stuck self waiting first →
  match e with Join _ player_id _ => player_id ≠ first | _ => True end →
  stuck (step self e) waiting first.
Proof.
  intros (Hwait & (game & rest & Hgame & Hplayers) & Hgone) He.
  destruct e as [ws pid gid|pid column|pid]; simpl.
  - unfold register_player. rewrite Hwait, Hgame, Hplayers.
    cbn [dict_set set_players players]. rewrite decide_False by done.
    cbn [notify_players]. rewrite lookup_insert_ne by done. rewrite Hgone.
    split_and!; simpl; [done| |by rewrite lookup_insert_ne].
    eexists _, _. split; [apply dict_get_set_eq|done].
  - unfold handle_move.
    destruct (route_move_dict_get (player_connections self) (games self)
                pid column waiting game Hgame) as (game' & Hgame' & Hsame).
    destruct (route_move _ (games self) pid column) as [[gs' out] r].
    simpl in *. split_and!; [done| |done].
    exists game', rest. split; [done|congruence].
  - split_and!; simpl; [done|by eexists _, _|].
    destruct (decide (pid = first)) as [->|Hne].
    + apply lookup_delete_eq.
    + by rewrite lookup_delete_ne.
Qed.

(** X8. Once the participant in seat 1 of the waiting session has left,
    matchmaking is stuck: whatever happens next (joins under other
    identities, moves, departures), the same session stays in the waiting
    slot, and every further join under another identity raises [KeyError]
    at the first notification, with nothing sent to anybody. *)
Theorem register_player_stuck (self : Connect4Server) (waiting first : string)
    (es : list event) (websocket : socket) (player_id fresh_game_id : string) :
  stuck self waiting first →
  no_join_as first es →
  player_id ≠ first →
  game_waiting (run self es) = Some waiting ∧
  (register_player (run self es) websocket player_id fresh_game_id).2
    = Raise KeyError ∧
  (register_player (run self es) websocket player_id fresh_game_id).1.2 = [] ∧
  game_waiting (register_player (run self es) websocket player_id fresh_game_id).1.1
    = Some waiting.
Proof.
  intros Hstuck Hes Hpid.
  assert (stuck (run self es) waiting first) as Hrun.
  { unfold run. revert self Hstuck.
    induction Hes as [|e es He _ IH]; intros self Hstuck; simpl; [done|].
    apply IH. by apply stuck_step. }
  destruct Hrun as (Hwait & (game & rest & Hgame & Hplayers) & Hgone).
  split; [done|]. unfold register_player. rewrite Hwait, Hgame, Hplayers.
  cbn [dict_set set_players players]. rewrite decide_False by done.
  cbn [notify_players]. rewrite lookup_insert_ne by done. by rewrite Hgone.
Qed.

Lemma register_player_stuck_witness :
  game_waiting (run (run new_server [Join 1%nat "p1" "g1"; Leave "p1"])
                  [Join 2%nat "p2" "g2"; Move "p2" 3; Leave "p2"]) = Some "g1" ∧
  (register_player (run (run new_server [Join 1%nat "p1" "g1"; Leave "p1"])
                      [Join 2%nat "p2" "g2"; Move "p2" 3; Leave "p2"])
     3%nat "p3" "g3").2 = Raise KeyError ∧
  (register_player (run (run new_server [Join 1%nat "p1" "g1"; Leave "p1"])
                      [Join 2%nat "p2" "g2"; Move "p2" 3; Leave "p2"])
     3%nat "p3" "g3").1.2 = [] ∧
  game_waiting (register_player
                  (run (run new_server [Join 1%nat "p1" "g1"; Leave "p1"])
                     [Join 2%nat "p2" "g2"; Move "p2" 3; Leave "p2"])
                  3%nat "p3" "g3").1.1 = Some "g1".
Proof.
  apply (register_player_stuck
           (run new_server [Join 1%nat "p1" "g1"; Leave "p1"]) "g1" "p1"
           [Join 2%nat "p2" "g2"; Move "p2" 3; Leave "p2"] 3%nat "p3" "g3").
  - split_and!.
    + reflexivity.
    + exists (set_players (new_game "g1") [(1, "p1")]), []. split; reflexivity.
    + vm_compute. reflexivity.
  - repeat constructor. discriminate.
  - discriminate.
Defined.

(** ** Counting pieces *)

Lemma count_insert (q : Z) (cells : list Z) (col : nat) (v x : Z) :
  cells !! col = Some v →
  (length (filter (λ u, u = q) (<[col := x]> cells))
   + (if decide (v = q) then 1 else 0)
   = length (filter (λ u, u = q) cells)
     + (if decide (x = q) then 1 else 0))%nat.
Proof.
  revert col. induction cells as [|u cells IH]; intros col Hcol; [done|].
  destruct col as [|col]; simpl in *.
  - injection Hcol as ->. rewrite !filter_cons.
    repeat case_decide; simpl; lia.
  - rewrite !filter_cons. specialize (IH col Hcol).
    repeat case_decide; simpl in *; lia.
Qed.

Lemma count_cells_setitem (q : Z) b row col (v x : Z) :
  cell b row col = Some v →
  (count_cells q (setitem b row col x) + (if decide (v = q) then 1 else 0)
   = count_cells q b + (if decide (x = q) then 1 else 0))%nat.
Proof.
  unfold cell, setitem, count_cells. revert row.
  induction b as [|cells b IH]; intros row Hcell; [done|].
  destruct row as [|row]; simpl in *.
  - rewrite !filter_app, !length_app.
    pose proof (count_insert q cells col v x Hcell) as Hrow.
    etrans; [apply Nat.add_shuffle0|]. rewrite Hrow. apply Nat.add_shuffle0.
  - rewrite !filter_app, !length_app, <- !Nat.add_assoc.
    f_equal. by apply IH.
Qed.

(** ** Lines and new pieces *)

Lemma cellZ_setitem_ne b row col p (x y : Z) :
  ¬ (x = Z.of_nat row ∧ y = Z.of_nat col) →
  cellZ (setitem b row col p) x y = cellZ b x y.
Proof.
  intros Hne. unfold cellZ. case_bool_decide as Hxy; [|done].
  apply cell_setitem_ne. intros [= Hr Hc]. apply Hne. lia.
Qed.

Lemma cellZ_setitem_eq b row col p v :
  cell b row col = Some v →
  cellZ (setitem b row col p) (Z.of_nat row) (Z.of_nat col) = Some p.
Proof.
  intros Hcell. rewrite cellZ_nat by lia. rewrite !Nat2Z.id.
  by eapply cell_setitem_eq.
Qed.

(** A line of four stays when a piece is put into an empty cell. *)
Lemma four_in_line_setitem_mono b row col p q :
  cell b row col = Some 0 → q ≠ 0 →
  four_in_line b q → four_in_line (setitem b row col p) q.
Proof.
  intros Hempty Hq (r & c & dr & dc & Hdir & Hline).
  exists r, c, dr, dc. split; [done|]. intros i Hi.
  rewrite cellZ_setitem_ne; [by apply Hline|].
  intros [Hr Hc]. specialize (Hline i Hi). rewrite Hr, Hc in Hline.
  rewrite cellZ_nat in Hline by lia. rewrite !Nat2Z.id in Hline. congruence.
Qed.

(** A new piece completes no line of another marker. *)
Lemma four_in_line_setitem_other b row col p q v :
  cell b row col = Some v → p ≠ q →
  four_in_line (setitem b row col p) q → four_in_line b q.
Proof.
  intros Hcell Hpq (r & c & dr & dc & Hdir & Hline).
  exists r, c, dr, dc. split; [done|]. intros i Hi.
  rewrite <- (cellZ_setitem_ne b row col p); [by apply Hline|].
  intros [Hr Hc]. specialize (Hline i Hi). rewrite Hr, Hc in Hline.
  rewrite (cellZ_setitem_eq _ _ _ _ _ Hcell) in Hline. congruence.
Qed.

(** ** Every game of a run is in order *)

Lemma new_game_cell gid row col v :
  cell (board (new_game gid)) row col = Some v → v = 0.
Proof.
  unfold cell, new_game. cbn [board]. intros Hcell.
  destruct (replicate 6 (replicate 7 0) !! row) as [cells|] eqn:Hrow;
    [|done]. cbn [mbind option_bind] in Hcell.
  apply lookup_replicate in Hrow as [-> _].
  by apply lookup_replicate in Hcell as [-> _].
Qed.

Lemma new_game_no_line gid p : p ≠ 0 → ¬ four_in_line (board (new_game gid)) p.
Proof.
  intros Hp (r & c & dr & dc & _ & Hline).
  specialize (Hline 0 ltac:(lia)). unfold cellZ in Hline.
  case_bool_decide; [|done]. apply new_game_cell in Hline. congruence.
Qed.

Lemma new_game_ok gid player_id :
  game_ok (set_players (new_game gid) [(1, player_id)]).
Proof.
  split_and!.
  - apply new_game_wf.
  - intros row col v Hcell. left. by apply (new_game_cell gid row col).
  - intros n pid Hin. apply list_elem_of_singleton in Hin as [= -> ->]. by left.
  - left. split; reflexivity.
  - unfold outcome_ok. cbn [game_over winner board set_players new_game].
    split_and!; [done|by apply (new_game_no_line gid)..].
Qed.

Lemma set_players_ok game player_id :
  game_ok game → game_ok (set_players game (dict_set (players game) 2 player_id)).
Proof.
  intros (Hwf & Hcells & Hseats & Hturn & Hout). split_and!; [done..| |done|done].
  intros n pid [[= -> ->]|Hin]%elem_of_dict_set; [by right|].
  by apply (Hseats n pid).
Qed.

Lemma placed_ok game row col w :
  game_ok game →
  (row < 6)%nat →
  lowest_empty (board game) col row →
  (w = true ↔
     four_in_line (setitem (board game) row col (current_player game))
       (current_player game)) →
  game_ok (placed game (current_player game) row col w).
Proof.
  intros (Hwf & Hcells & Hseats & Hturn & Hout) Hrow [Hempty _] Hw.
  assert (current_player game = 1 ∨ current_player game = 2) as Hn
    by (destruct Hturn as [[-> _]|[-> _]]; [by left|by right]).
  unfold turn_ok in Hturn.
  remember (current_player game) as n eqn:Hcurn.
  pose proof (count_cells_setitem 1 _ _ _ _ n Hempty) as Hc1.
  pose proof (count_cells_setitem 2 _ _ _ _ n Hempty) as Hc2.
  split_and!.
  - rewrite placed_board. by apply setitem_wf.
  - rewrite placed_board. intros r c v Hcell.
    destruct (decide ((r, c) = (row, col))) as [[= -> ->]|Hne].
    + rewrite (cell_setitem_eq _ _ _ _ _ Hempty) in Hcell.
      injection Hcell as <-. lia.
    + rewrite cell_setitem_ne in Hcell by done. by eapply Hcells.
  - unfold seats_ok. by rewrite placed_players.
  - unfold turn_ok. rewrite placed_board, placed_current_player.
    destruct Hturn as [[Hcur Hcount]|[Hcur Hcount]];
      rewrite Hcur in *; simpl in Hc1, Hc2.
    + right. split; [done|lia].
    + left. split; [done|lia].
  - unfold outcome_ok, placed. destruct w.
    + cbn [game_over winner board set_won set_current_player set_board].
      exists n. split_and!; [done..|]. by apply Hw.
    + cbn [game_over winner board set_won set_current_player set_board].
      assert (¬ four_in_line (setitem (board game) row col n) n) as Hno
        by (intros Hline; by apply Hw in Hline).
      unfold outcome_ok in Hout. destruct (game_over game).
      * destruct Hout as (p & Hp & Hwin & Hline).
        exists p. split_and!; [done..|].
        apply four_in_line_setitem_mono; [done|lia|done].
      * destruct Hout as (Hwin & Hno1 & Hno2). split_and!; [done| |].
        -- destruct (decide (n = 1)) as [Hn1|Hn1]; [intros Hline; apply Hno; congruence|].
           intros Hline. apply Hno1.
           by eapply (four_in_line_setitem_other _ _ _ n).
        -- destruct (decide (n = 2)) as [Hn2|Hn2]; [intros Hline; apply Hno; congruence|].
           intros Hline. apply Hno2.
           by eapply (four_in_line_setitem_other _ _ _ n).
Qed.

Lemma move_in_game_ok conns game n column :
  game_ok game → game_ok (move_in_game conns game n column).1.1.
Proof.
  intros Hok. destruct (decide (current_player game = n)) as [<-|Hne].
  - rewrite move_in_game_turn.
    destruct (make_move_outcome game (current_player game) column)
      as [Hbad|_ Hfull|row w _ Hrow Hlow _ Hw]; [apply Hok|done..|].
    by apply placed_ok.
  - by rewrite move_in_game_not_turn.
Qed.

Lemma route_move_ok conns gs player_id column :
  Forall (λ entry, game_ok entry.2) gs →
  Forall (λ entry, game_ok entry.2) (route_move conns gs player_id column).1.1.
Proof.
  induction 1 as [|[gid game] gs Hok Hrest IH]; simpl; [constructor|].
  destruct (seat_of game player_id) as [n|].
  - pose proof (move_in_game_ok conns game n column Hok) as Hok'.
    destruct (move_in_game conns game n column) as [[game' out] r].
    by constructor.
  - destruct (route_move conns gs player_id column) as [[gs' out] r].
    by constructor.
Qed.

Lemma step_ok self e :
  Forall (λ entry, game_ok entry.2) (games self) →
  Forall (λ entry, game_ok entry.2) (games (step self e)).
Proof.
  intros Hok. destruct e as [ws pid gid|pid column|pid]; simpl; [| |done].
  - unfold register_player.
    destruct (game_waiting self) as [waiting|]; simpl.
    + destruct (dict_get (games self) waiting) as [game|] eqn:Hgame; [|done].
      assert (Forall (λ entry, game_ok entry.2)
                (dict_set (games self) waiting
                   (set_players game (dict_set (players game) 2 pid)))) as Hnew.
      { rewrite Forall_forall in Hok. apply Forall_forall.
        intros entry [->|Hold]%elem_of_dict_set; [|by apply Hok].
        apply set_players_ok. apply dict_get_elem in Hgame.
        apply (Hok _ Hgame). }
      destruct (notify_players _ _ _) as [out [[]|e]]; done.
    + rewrite Forall_forall in Hok. apply Forall_forall.
      intros entry [->|Hold]%elem_of_dict_set; [|by apply Hok].
      apply new_game_ok.
  - unfold handle_move.
    pose proof (route_move_ok (player_connections self) (games self) pid column Hok)
      as Hok'.
    by destruct (route_move _ _ _ _) as [[gs' out] r].
Qed.

Lemma run_ok es : Forall (λ entry, game_ok entry.2) (games (run new_server es)).
Proof.
  unfold run.
  assert (Forall (λ entry, game_ok entry.2) (games new_server)) as Hinit
    by constructor.
  revert Hinit. generalize new_server.
  induction es as [|e es IH]; intros self Hok; simpl; [done|].
  by apply IH, step_ok.
Qed.

(** X9. In every state the server reaches from its start, whatever the
    participants do (joins, moves, departures, in any order), every game's
    board has 6 rows of 7 cells, and every cell is 0, 1 or 2. *)
Theorem reachable_boards (es : list event) :
  Forall (λ entry, board_wf (board entry.2) ∧ cells_ok (board entry.2))
    (games (run new_server es)).
Proof.
  eapply Forall_impl; [apply run_ok|].
  intros entry (Hwf & Hcells & _). by split.
Qed.

(** X10. In every state the server reaches, the turn of every game
    matches its board: it is seat 1's turn exactly when both seats have the
    same number of pieces on the board, and seat 2's turn exactly when seat
    1 has one piece more; no other turn value occurs.  The seats move
    strictly alternately, seat 1 first. *)
Theorem reachable_turn (es : list event) :
  Forall (λ entry,
            (current_player entry.2 = 1 ∧
             count_cells 1 (board entry.2) = count_cells 2 (board entry.2))
            ∨ (current_player entry.2 = 2 ∧
               count_cells 1 (board entry.2) = S (count_cells 2 (board entry.2))))
    (games (run new_server es)).
Proof.
  eapply Forall_impl; [apply run_ok|].
  intros entry (_ & _ & _ & Hturn & _). exact Hturn.
Qed.

(** X11. In every state the server reaches, the recorded outcome of every
    game matches its board: when [game_over] is set, [winner] is seat 1 or
    seat 2 and that seat has four in line on the board; when [game_over]
    is not set, [winner] is [None] and neither seat has four in line. *)
Theorem reachable_outcome (es : list event) :
  Forall (λ entry,
            if game_over entry.2
            then ∃ p, (p = 1 ∨ p = 2) ∧ winner entry.2 = Some p ∧
                      four_in_line (board entry.2) p
            else winner entry.2 = None ∧
                 ¬ four_in_line (board entry.2) 1 ∧
                 ¬ four_in_line (board entry.2) 2)
    (games (run new_server es)).
Proof.
  eapply Forall_impl; [apply run_ok|].
  intros entry (_ & _ & _ & _ & Hout). exact Hout.
Qed.





(** X13. A line of four, once on the board, stays there through every
    later [make_move], accepted or not, and [make_move] never clears
    [game_over]: a win is never taken back. *)
Theorem make_move_keeps_lines (self : Connect4Game) (player column q : Z) :
  q ≠ 0 →
  four_in_line (board self) q →
  four_in_line (board (make_move self player column).1) q ∧
  (game_over self = true → game_over (make_move self player column).1 = true).
Proof.
  intros Hq Hline.
  destruct (make_move_frame_any self player column)
    as (_ & _ & Hover & [Hboard|(row & col & Hempty & Hboard)]).
  - by rewrite Hboard.
  - rewrite Hboard. split; [|done]. by apply four_in_line_setitem_mono.
Qed.

Lemma make_move_keeps_lines_witness :
  four_in_line (board (make_move (game_of won_by_first) 2 6).1) 1 ∧
  (game_over (game_of won_by_first) = true →
   game_over (make_move (game_of won_by_first) 2 6).1 = true).
Proof.
  apply (make_move_keeps_lines (game_of won_by_first) 2 6 1).
  - lia.
  - exists 5, 0, 0, 1. split.
    + unfold directions. apply list_elem_of_In. left. reflexivity.
    + intros i Hi.
      assert (i = 0 ∨ i = 1 ∨ i = 2 ∨ i = 3) as [->|[->|[->| ->]]] by lia;
        vm_compute; reflexivity.
Defined.



(** ** Seats *)



(** ** What a join leaves alone *)

Lemma dict_set_lookup {K V : Type} `{EqDecision K} (d : list (K * V)) k v i e :
  d !! i = Some e →
  dict_set d k v !! i = Some e
  ∨ (e.1 = k ∧ dict_get d k = Some e.2 ∧ dict_set d k v !! i = Some (k, v)).
Proof.
  revert i. induction d as [|[k' v'] d IH]; intros i Hi; [done|]. simpl.
  destruct (decide (k' = k)) as [->|Hne].
  - destruct i as [|i]; simpl in *; [|by left].
    injection Hi as <-. by right.
  - destruct i as [|i]; simpl in *; [by left|].
    by apply IH.
Qed.

(** X16. A join whose fresh game id is not the id of an existing game
    leaves every existing game where it is in [games], with its id, board,
    turn and outcome; it records the joiner's connection and changes no
    other connection.  (Only the seats of the waiting game change.) *)
Theorem register_player_frame (self : Connect4Server) (websocket : socket)
    (player_id fresh_game_id : string) :
  fresh_game_id ∉ keys (games self) →
  (∀ k entry,
     games self !! k = Some entry →
     ∃ entry',
       games (register_player self websocket player_id fresh_game_id).1.1 !! k
         = Some entry' ∧
       entry'.1 = entry.1 ∧
       game_id entry'.2 = game_id entry.2 ∧
       board entry'.2 = board entry.2 ∧
       current_player entry'.2 = current_player entry.2 ∧
       game_over entry'.2 = game_over entry.2 ∧
       winner entry'.2 = winner entry.2) ∧
  player_connections (register_player self websocket player_id fresh_game_id).1.1
    !! player_id = Some websocket ∧
  (∀ other, other ≠ player_id →
     player_connections (register_player self websocket player_id fresh_game_id).1.1
       !! other = player_connections self !! other).
Proof.
  intros Hfresh.
  assert (∀ gs' conns' waiting' game k entry,
            games self !! k = Some entry →
            gs' = dict_set (games self) fresh_game_id game
            ∨ (∃ waiting game0,
                 dict_get (games self) waiting = Some game0 ∧
                 gs' = dict_set (games self) waiting
                         (set_players game0 (dict_set (players game0) 2 player_id))) →
            ∃ entry',
              games (mkServer gs' conns' waiting') !! k = Some entry' ∧
              entry'.1 = entry.1 ∧
              game_id entry'.2 = game_id entry.2 ∧
              board entry'.2 = board entry.2 ∧
              current_player entry'.2 = current_player entry.2 ∧
              game_over entry'.2 = game_over entry.2 ∧
              winner entry'.2 = winner entry.2) as Hgames.
  { intros gs' conns' waiting' game k entry Hentry
      [->|(waiting & game0 & Hgame0 & ->)]; simpl.
    - destruct (dict_set_lookup (games self) fresh_game_id game k entry Hentry)
        as [Hsame|(Hkey & _)]; [by exists entry|].
      destruct Hfresh. unfold keys. rewrite <- Hkey.
      apply list_elem_of_fmap. exists entry. split; [done|].
      by eapply list_elem_of_lookup_2.
    - destruct (dict_set_lookup (games self) waiting
                  (set_players game0 (dict_set (players game0) 2 player_id))
                  k entry Hentry)
        as [Hsame|(Hkey & Hget & Hnew)]; [by exists entry|].
      eexists. split; [exact Hnew|]. rewrite Hgame0 in Hget.
      injection Hget as ->. by simpl. }
  unfold register_player.
  destruct (game_waiting self) as [waiting|]; simpl.
  - destruct (dict_get (games self) waiting) as [game0|] eqn:Hgame0; simpl.
    + destruct (notify_players _ _ _) as [out [[]|e]]; simpl;
        (split_and!;
         [intros k entry Hentry;
          apply (Hgames _ ∅ None game0 k entry Hentry); right; by eexists _, _
         |apply lookup_insert_eq
         |intros other Hother; by rewrite lookup_insert_ne]).
    + split_and!; [intros k entry Hentry; by exists entry
                  |apply lookup_insert_eq
                  |intros other Hother; by rewrite lookup_insert_ne].
  - split_and!; [|apply lookup_insert_eq
                 |intros other Hother; by rewrite lookup_insert_ne].
    intros k entry Hentry.
    apply (Hgames _ ∅ None
             (set_players (new_game fresh_game_id) [(1, player_id)]) k entry Hentry).
    by left.
Qed.

Lemma register_player_frame_witness :
  player_connections (register_player two_players 3%nat "p3" "g3").1.1 !! "p3"
  = Some 3%nat.
Proof.
  apply (register_player_frame two_players 3%nat "p3" "g3").
  intros Hin. apply list_elem_of_In in Hin. vm_compute in Hin.
  destruct Hin as [Hg|[]]. discriminate.
Defined.

(** ** How many pieces a line takes *)

(** Distinct cells that hold [p] are counted by [count_cells]. *)
Lemma count_cells_ge (p : Z) (ps : list (nat * nat)) b :
  p ≠ 0 → NoDup ps →
  (∀ rc, rc ∈ ps → cell b rc.1 rc.2 = Some p) →
  (length ps ≤ count_cells p b)%nat.
Proof.
  intros Hp Hdup. revert b.
  induction Hdup as [|[r c] ps Hnotin _ IH]; intros b Hcells; simpl; [lia|].
  assert (cell b r c = Some p) as Hrc by (apply (Hcells (r, c)); left).
  pose proof (count_cells_setitem p b r c p 0 Hrc) as Hcount.
  rewrite decide_True, decide_False in Hcount by done.
  assert (length ps ≤ count_cells p (setitem b r c 0))%nat as Hrest.
  { apply IH. intros [r' c'] Hin. simpl.
    rewrite cell_setitem_ne; [apply (Hcells (r', c')); by right|].
    intros [= -> ->]. done. }
  lia.
Qed.

Lemma four_in_line_count b p :
  p ≠ 0 → four_in_line b p → (4 ≤ count_cells p b)%nat.
Proof.
  intros Hp (r & c & dr & dc & Hdir & Hline).
  assert (∀ i, 0 ≤ i < 4 →
            0 ≤ r + i * dr ∧ 0 ≤ c + i * dc ∧
            cell b (Z.to_nat (r + i * dr)) (Z.to_nat (c + i * dc)) = Some p)
    as Hcell.
  { intros i Hi. specialize (Hline i Hi). unfold cellZ in Hline.
    case_bool_decide as Hnn; [|done]. by destruct Hnn. }
  destruct (Hcell 0 ltac:(lia)) as (Hr0 & Hc0 & H0).
  destruct (Hcell 1 ltac:(lia)) as (Hr1 & Hc1 & H1).
  destruct (Hcell 2 ltac:(lia)) as (Hr2 & Hc2 & H2).
  destruct (Hcell 3 ltac:(lia)) as (Hr3 & Hc3 & H3).
  apply (count_cells_ge p
           [(Z.to_nat (r + 0 * dr), Z.to_nat (c + 0 * dc));
            (Z.to_nat (r + 1 * dr), Z.to_nat (c + 1 * dc));
            (Z.to_nat (r + 2 * dr), Z.to_nat (c + 2 * dc));
            (Z.to_nat (r + 3 * dr), Z.to_nat (c + 3 * dc))]); [done| |].
  - unfold directions in Hdir. rewrite !elem_of_cons, elem_of_nil in Hdir.
    rewrite !NoDup_cons, !not_elem_of_cons.
    destruct Hdir as [[= -> ->]|[[= -> ->]|[[= -> ->]|[[= -> ->]|[]]]]];
      (split_and!;
       [intros Heq; inversion Heq; lia..|apply not_elem_of_nil|apply NoDup_nil_2]).
  - intros rc Hin. rewrite !elem_of_cons, elem_of_nil in Hin.
    destruct Hin as [->|[->|[->|[->|[]]]]]; done.
Qed.

(** X17. In every state the server reaches, a game that is over has at
    least seven pieces on its board, four of them seat 1's or (when seat 2
    won) four of each: no game ends before the seventh accepted move. *)
Theorem reachable_game_over_pieces (es : list event) :
  Forall (λ entry,
            game_over entry.2 = true →
            (4 ≤ count_cells 1 (board entry.2))%nat ∧
            (7 ≤ count_cells 1 (board entry.2) + count_cells 2 (board entry.2))%nat)
    (games (run new_server es)).
Proof.
  eapply Forall_impl; [apply run_ok|].
  intros entry (_ & _ & _ & Hturn & Hout) Hover.
  unfold outcome_ok in Hout. rewrite Hover in Hout.
  destruct Hout as (p & Hp & _ & Hline).
  apply four_in_line_count in Hline; [|lia].
  destruct Hturn as [[_ Hcount]|[_ Hcount]], Hp as [-> | ->]; lia.
Qed.

(** ** Results and turns *)




